(** * cnn.builder and cnn.simple_model: a shallow embedding

    The builder of [src/cnn/builder.py] and the model of
    [src/cnn/simple_model.py], as functions of a state-and-exception monad.

    - Python ints are [Z]; Python floats are [pynum]s: a literal is an IEEE
      binary64 value, and the result of [/] and [**] is kept as the
      operation applied to its operands (rounding is not modelled).
      [/] is Python 3's true division.
    - An exception is a value of [exn]; a computation returns [Ok v] or
      [Raise e] together with the state it leaves behind, as mutations made
      before a raise persist.
    - TensorFlow is code the repository only calls. It is modelled as a
      recorder: every call into it is appended to [calls] as the object that
      the call builds, and that object is returned. Of its own argument
      checking only one rule is kept: an argument that must be a tensor and
      is not one makes the call raise. What else the framework refuses (a
      negative dimension or a name in use for a variable, operands whose
      shapes do not fit, a keep probability outside (0, 1]) is not
      decided here: the model goes on where the framework may raise. That a
      method returns is therefore, below, either a statement about this
      model or the hypothesis of a statement about the run. *)

From Stdlib Require Import ZArith String List Floats Bool.
From stdpp Require Import gmap strings list pretty.

Open Scope Z_scope.

(** ** Python values and exceptions *)

Module Py.

Inductive exn : Type :=
| KeyError (key : string)
| IndexError
| ZeroDivisionError
| TypeError (msg : string).

Inductive result (A : Type) : Type :=
| Ok (a : A)
| Raise (e : exn).
Arguments Ok {A} a.
Arguments Raise {A} e.

Definition is_ok {A} (r : result A) : bool :=
  match r with Ok _ => true | Raise _ => false end.

(** A Python float, or the number a float operation yields. *)
Inductive pynum : Type :=
| PyFloat (f : float)
| PyTrueDiv (a b : Z)
| PyPow (x y : pynum)
| PyNeg (x : pynum).

(** [M S A]: a computation over a mutable state [S]. *)
Definition M (S A : Type) : Type := S -> result A * S.

Definition ret {S A} (a : A) : M S A := fun s => (Ok a, s).

Definition raise {S A} (e : exn) : M S A := fun s => (Raise e, s).

Definition bind {S A B} (c : M S A) (k : A -> M S B) : M S B :=
  fun s =>
    match c s with
    | (Ok a, s') => k a s'
    | (Raise e, s') => (Raise e, s')
    end.

(** A value that needs no state: an expression that may raise. *)
Definition lift_result {S A} (r : result A) : M S A := fun s => (r, s).

(** [with enter: body], the exit running on every way out of the body. *)
Definition with_block {S A} (enter leave : M S unit) (body : M S A) : M S A :=
  fun s =>
    match enter s with
    | (Ok _, s1) =>
        let '(r, s2) := body s1 in
        let '(_, s3) := leave s2 in
        (r, s3)
    | (Raise e, s1) => (Raise e, s1)
    end.

(** [len(l)] *)
Definition len {A} (l : list A) : Z := Z.of_nat (length l).

(** [l[i]]: a negative index counts from the end; out of range raises. *)
Definition getitem {A} (l : list A) (i : Z) : result A :=
  let j := if i <? 0 then len l + i else i in
  if j <? 0 then Raise IndexError
  else match nth_error l (Z.to_nat j) with
       | Some x => Ok x
       | None => Raise IndexError
       end.

(** [l[:stop]] *)
Definition slice_to {A} (l : list A) (stop : Z) : list A :=
  let j := if stop <? 0 then Z.max (len l + stop) 0 else stop in
  firstn (Z.to_nat j) l.

(** [a / b] on ints. *)
Definition truediv (a b : Z) : result pynum :=
  if b =? 0 then Raise ZeroDivisionError else Ok (PyTrueDiv a b).

(** A string argument that may be [None]. [x or d]: [None] and the empty
    string are falsy. *)
Definition or_default (x : option string) (d : string) : string :=
  match x with
  | None => d
  | Some s => if String.eqb s "" then d else s
  end.

(** [d[key]] on a dict literal [{k1: v1, ...}] of distinct keys. *)
Fixpoint dict_getitem {V} (d : list (string * V)) (key : string) : result V :=
  match d with
  | [] => Raise (KeyError key)
  | (k, v) :: d' => if String.eqb k key then Ok v else dict_getitem d' key
  end.

End Py.
Export Py.

Declare Scope py_scope.
Delimit Scope py_scope with py.
Notation "x <- c ;; k" := (bind c (fun x => k))
  (at level 100, c at next level, right associativity) : py_scope.
Notation "c ;; k" := (bind c (fun _ => k))
  (at level 100, right associativity) : py_scope.
Open Scope py_scope.

(** ** The framework *)

Module TF.

Inductive DType : Type :=
| float16 | float32 | float64 | bfloat16
| complex64 | complex128
| int8 | int16 | int32 | int64
| uint8 | uint16
| bool_ | string_
| qint8 | quint8 | qint16 | quint16 | qint32.

(** [DType.is_floating]: a real, non-quantized floating point type. *)
Definition is_floating (d : DType) : bool :=
  match d with
  | float16 | float32 | float64 | bfloat16 => true
  | _ => false
  end.

(** The objects the code handles. A constructor named after a framework
    function is the object a call of it with these arguments builds. *)
Inductive pyobj : Type :=
| Placeholder (name : string) (shape : list Z)
| ExcInstance (e : exn)
| VariableScope (name : string)
| Device (name : string)
| RandomUniformInitializer (minval maxval : pynum) (dtype : DType)
| ZerosInitializer (dtype : DType)
| VariableV2 (scope : list string) (device : option string) (name : string)
    (shape : list Z) (dtype : DType) (initializer : pyobj)
| Conv2D (input filter : pyobj) (strides : list Z) (padding : string)
    (data_format : string)
| BiasAdd (value bias : pyobj) (data_format : string)
| Relu (features : pyobj)
| Sigmoid (x : pyobj)
| Softmax (logits : pyobj)
| Tanh (x : pyobj)
| Dropout (x : pyobj) (keep_prob : pynum) (name : string)
| MatMul (a b : pyobj)
| Add (x y : pyobj)
| MaxPool (value : pyobj) (ksize strides : list Z) (padding : string)
    (data_format : string) (name : string)
| LRN (input : pyobj) (depth_radius bias alpha beta : option pynum)
    (name : string)
| Reshape (tensor : pyobj) (shape : list Z) (name : string).

Definition is_tensor (o : pyobj) : bool :=
  match o with
  | ExcInstance _ | VariableScope _ | Device _
  | RandomUniformInitializer _ _ _ | ZerosInitializer _ => false
  | _ => true
  end.

(** The framework's state: the open variable scopes and devices, innermost
    first, and every call made so far, oldest first. *)
Record TFState : Type := mkTF {
  scopes : list string;
  devices : list string;
  calls : list pyobj
}.

Definition TF0 : TFState := mkTF [] [] [].

Definition record_call (c : pyobj) (t : TFState) : TFState :=
  mkTF (scopes t) (devices t) (calls t ++ [c]).

Definition not_a_tensor : exn :=
  TypeError "Failed to convert object to Tensor.".

(** A framework function over tensors: the call is recorded; it raises
    when a tensor argument is no tensor, and returns the new node
    otherwise. The checks the framework makes on the shapes and values of
    the arguments are left out. *)
Definition op (tensor_args : list pyobj) (node : pyobj) : M TFState pyobj :=
  fun t =>
    (if forallb is_tensor tensor_args then Ok node else Raise not_a_tensor,
     record_call node t).

Definition variable_scope_enter (name : string) : M TFState unit :=
  fun t => (Ok tt, mkTF (name :: scopes t) (devices t)
                        (calls t ++ [VariableScope name])).

Definition variable_scope_exit : M TFState unit :=
  fun t => (Ok tt, mkTF (tail (scopes t)) (devices t) (calls t)).

Definition device_enter (name : string) : M TFState unit :=
  fun t => (Ok tt, mkTF (scopes t) (name :: devices t)
                        (calls t ++ [Device name])).

Definition device_exit : M TFState unit :=
  fun t => (Ok tt, mkTF (scopes t) (tail (devices t)) (calls t)).

Definition random_uniform_initializer (minval maxval : pynum) (dtype : DType)
  : M TFState pyobj :=
  let o := RandomUniformInitializer minval maxval dtype in
  fun t => (Ok o, record_call o t).

Definition zeros_initializer (dtype : DType) : M TFState pyobj :=
  let o := ZerosInitializer dtype in
  fun t => (Ok o, record_call o t).

(** [tf.get_variable]: the variable of this name in the open scopes,
    placed on the innermost open device. That the framework refuses a
    negative dimension, and a name the scope already holds, is left out. *)
Definition get_variable (name : string) (shape : list Z) (dtype : DType)
    (initializer : pyobj) : M TFState pyobj :=
  fun t =>
    let v := VariableV2 (scopes t) (head (devices t)) name shape dtype
               initializer in
    (Ok v, record_call v t).

Definition nn_conv2d (input filter : pyobj) (strides : list Z)
    (padding data_format : string) : M TFState pyobj :=
  op [input; filter] (Conv2D input filter strides padding data_format).

Definition nn_bias_add (value bias : pyobj) (data_format : string)
  : M TFState pyobj :=
  op [value; bias] (BiasAdd value bias data_format).

Definition nn_relu (features : pyobj) : M TFState pyobj :=
  op [features] (Relu features).

Definition nn_sigmoid (x : pyobj) : M TFState pyobj := op [x] (Sigmoid x).

Definition nn_softmax (logits : pyobj) : M TFState pyobj :=
  op [logits] (Softmax logits).

Definition nn_tanh (x : pyobj) : M TFState pyobj := op [x] (Tanh x).

Definition nn_dropout (x : pyobj) (keep_prob : pynum) (name : string)
  : M TFState pyobj :=
  op [x] (Dropout x keep_prob name).

Definition matmul (a b : pyobj) : M TFState pyobj := op [a; b] (MatMul a b).

(** [x + y] on a tensor [x]. *)
Definition add (x y : pyobj) : M TFState pyobj := op [x; y] (Add x y).

Definition nn_max_pool (value : pyobj) (ksize strides : list Z)
    (padding data_format name : string) : M TFState pyobj :=
  op [value] (MaxPool value ksize strides padding data_format name).

Definition nn_local_response_normalization (input : pyobj)
    (depth_radius bias alpha beta : option pynum) (name : string)
  : M TFState pyobj :=
  op [input] (LRN input depth_radius bias alpha beta name).

Definition reshape (tensor : pyobj) (shape : list Z) (name : string)
  : M TFState pyobj :=
  op [tensor] (Reshape tensor shape name).

(** *** Static shapes

    The shape of the tensor a node denotes, for the nodes whose shape does
    not depend on padding arithmetic; [None] is a shape this model leaves
    undetermined, or a node the framework does not build. *)

Definition num_elements (shape : list Z) : Z := fold_right Z.mul 1 shape.

(** The shape [tf.reshape] gives a tensor of [n] elements. An entry [-1] is
    replaced by the size that keeps the number of elements. There is no
    such shape when an entry is below [-1], when more than one entry is
    [-1], when the entries beside the [-1] multiply to zero, or when no
    entry is [-1] and the entries do not multiply to [n]. The size for the
    entry [-1] is the quotient, also where the division leaves a
    remainder. *)
Definition reshape_shape (n : Z) (shape : list Z) : option (list Z) :=
  let known := num_elements (List.filter (fun d => negb (d =? -1)) shape) in
  if existsb (fun d => d <? -1) shape then None
  else
    match List.filter (fun d => d =? -1) shape with
    | [] => if known =? n then Some shape else None
    | [_] =>
        if known =? 0 then None
        else Some (map (fun d => if d =? -1 then n / known else d) shape)
    | _ => None
    end.

Fixpoint static_shape (o : pyobj) : option (list Z) :=
  match o with
  | Placeholder _ shape => Some shape
  | VariableV2 _ _ _ shape _ _ => Some shape
  | BiasAdd value _ _ => static_shape value
  | Relu x | Sigmoid x | Softmax x | Tanh x => static_shape x
  | Dropout x _ _ => static_shape x
  | Add x _ => static_shape x
  | LRN x _ _ _ _ _ => static_shape x
  | MatMul a b =>
      match static_shape a, static_shape b with
      | Some [m; k], Some [k'; n] => if k =? k' then Some [m; n] else None
      | _, _ => None
      end
  | Reshape x shape _ =>
      match static_shape x with
      | Some s => reshape_shape (num_elements s) shape
      | None => None
      end
  | _ => None
  end.

(** The size of the last dimension. *)
Definition last_dimension (o : pyobj) : option Z :=
  match static_shape o with
  | Some s => last s
  | None => None
  end.

End TF.
Export TF.

(** ** cnn/builder.py *)

Module Builder.

Record CNNBuilder : Type := mkBuilder {
  top_layer : pyobj;
  num_top_channels : Z;
  is_train_phase : bool;
  padding_mode : string;
  data_format : string;
  data_type : DType;
  layer_counts : gmap string Z
}.

(** [CNNBuilder.__init__]; [layer_counts] is a [defaultdict(int)], a
    missing key reading as 0. *)
Definition __init__ (input_layer : pyobj) (num_input_channels : Z)
    (is_train_phase : bool) (padding_mode data_format : string)
    (data_type : DType) : CNNBuilder :=
  mkBuilder input_layer num_input_channels is_train_phase padding_mode
    data_format data_type ∅.

(** [CNNBuilder(input_layer, num_input_channels, is_train_phase)] with the
    defaults of the signature. *)
Definition __init__defaults (input_layer : pyobj) (num_input_channels : Z)
    (is_train_phase : bool) : CNNBuilder :=
  __init__ input_layer num_input_channels is_train_phase "SAME" "NCHW" float32.

(** What a method runs in: the builder object [self] and the framework. *)
Record World : Type := mkWorld {
  self : CNNBuilder;
  tf : TFState
}.

Definition lift_tf {A} (c : M TFState A) : M World A :=
  fun w => let '(r, t) := c (tf w) in (r, mkWorld (self w) t).

(** [self.field] *)
Definition attr {A} (field : CNNBuilder -> A) : M World A :=
  fun w => (Ok (field (self w)), w).

(** [self.top_layer = v] *)
Definition set_top_layer (v : pyobj) : M World unit :=
  fun w =>
    let b := self w in
    (Ok tt, mkWorld (mkBuilder v (num_top_channels b) (is_train_phase b)
                       (padding_mode b) (data_format b) (data_type b)
                       (layer_counts b)) (tf w)).

(** [self.num_top_channels = n] *)
Definition set_num_top_channels (n : Z) : M World unit :=
  fun w =>
    let b := self w in
    (Ok tt, mkWorld (mkBuilder (top_layer b) n (is_train_phase b)
                       (padding_mode b) (data_format b) (data_type b)
                       (layer_counts b)) (tf w)).

(** [self.layer_counts[prefix]]: on a [defaultdict(int)] a missing key reads
    as 0. *)
Definition layer_count (b : CNNBuilder) (prefix : string) : Z :=
  default 0 (layer_counts b !! prefix).

(** [self.layer_counts[prefix] = n] *)
Definition set_layer_count (prefix : string) (n : Z) : M World unit :=
  fun w =>
    let b := self w in
    (Ok tt, mkWorld (mkBuilder (top_layer b) (num_top_channels b)
                       (is_train_phase b) (padding_mode b) (data_format b)
                       (data_type b) (<[prefix := n]> (layer_counts b)))
              (tf w)).

(** [return self.top_layer, self.num_top_channels] *)
Definition return_top : M World (pyobj * Z) :=
  top <- attr top_layer ;;
  n <- attr num_top_channels ;;
  ret (top, n).

Definition _activation (input_tensor : pyobj) (method : option string)
  : M TFState pyobj :=
  let method := or_default method "linear" in
  relu <- TF.nn_relu input_tensor ;;
  sigmoid <- TF.nn_sigmoid input_tensor ;;
  softmax <- TF.nn_softmax input_tensor ;;
  tanh <- TF.nn_tanh input_tensor ;;
  lift_result
    (dict_getitem [("linear", input_tensor); ("relu", relu);
                   ("sigmoid", sigmoid); ("softmax", softmax);
                   ("tanh", tanh)] method).

(** The loop [for dim in shape[:-2]: fan_in *= dim; fan_out *= dim]. *)
Definition fan_loop (dims : list Z) (fan_in fan_out : Z) : Z * Z :=
  fold_left (fun '(fan_in, fan_out) dim => (fan_in * dim, fan_out * dim))
    dims (fan_in, fan_out).

Definition _initializer (shape : list Z) (data_type : DType)
    (method : option string) : M TFState pyobj :=
  fan_in <- lift_result (if 1 <? len shape then getitem shape (-2)
                         else getitem shape (-1)) ;;
  fan_out <- lift_result (getitem shape (-1)) ;;
  let '(fan_in, fan_out) := fan_loop (slice_to shape (-2)) fan_in fan_out in
  quotient <- lift_result (truediv 6 (fan_in + fan_out)) ;;
  let gu_val := PyPow quotient (PyFloat 0.5) in
  let method := or_default method "zeros" in
  glorot_uniform <- TF.random_uniform_initializer (PyNeg gu_val) gu_val
                      data_type ;;
  zeros <- TF.zeros_initializer data_type ;;
  lift_result
    (dict_getitem [("glorot_uniform", glorot_uniform); ("zeros", zeros)]
       method).

Definition not_floating_point : exn :=
  TypeError "Variables must be initialized as floating point.".

Definition cnn_variable (name : string) (shape : list Z)
    (init_method : option string) (data_type : DType) : M TFState pyobj :=
  if negb (is_floating data_type) then ret (ExcInstance not_floating_point)
  else
    with_block (TF.device_enter "/cpu:0") TF.device_exit
      (initializer <- _initializer shape data_type init_method ;;
       variable <- TF.get_variable name shape data_type initializer ;;
       ret variable).

(** [cnn_variable(name, shape, data_type=data_type)] *)
Definition cnn_variable_default_init (name : string) (shape : list Z)
    (data_type : DType) : M TFState pyobj :=
  cnn_variable name shape (Some "glorot_uniform") data_type.

Definition _get_name (prefix : string) : M World string :=
  count <- attr (fun b => layer_count b prefix) ;;
  let name := prefix +:+ pretty count in
  count <- attr (fun b => layer_count b prefix) ;;
  set_layer_count prefix (count + 1) ;;
  ret name.

Definition add_layer (layer : pyobj) (num_layer_channels : Z)
  : M World (pyobj * Z) :=
  set_top_layer layer ;;
  set_num_top_channels num_layer_channels ;;
  return_top.

Definition with_variable_scope {A} (name : string) (body : M World A)
  : M World A :=
  with_block (lift_tf (TF.variable_scope_enter name))
    (lift_tf TF.variable_scope_exit) body.

Definition convolution (num_out_channels filter_height filter_width
    vertical_stride horizontal_stride : Z) (activation_method : option string)
  : M World (pyobj * Z) :=
  name <- _get_name "conv" ;;
  with_variable_scope name
    (num_in <- attr num_top_channels ;;
     let filter_shape :=
       [filter_height; filter_width; num_in; num_out_channels] in
     dt <- attr data_type ;;
     filter <- lift_tf (cnn_variable_default_init "filter" filter_shape dt) ;;
     let strides := [1; vertical_stride; horizontal_stride; 1] in
     fmt <- attr data_format ;;
     strides <- (if String.eqb fmt "NCHW" then
                   s0 <- lift_result (getitem strides 0) ;;
                   s3 <- lift_result (getitem strides 3) ;;
                   s1 <- lift_result (getitem strides 1) ;;
                   s2 <- lift_result (getitem strides 2) ;;
                   ret [s0; s3; s1; s2]
                 else ret strides) ;;
     top <- attr top_layer ;;
     padding <- attr padding_mode ;;
     fmt <- attr data_format ;;
     conv <- lift_tf (TF.nn_conv2d top filter strides padding fmt) ;;
     dt <- attr data_type ;;
     biases <- lift_tf (cnn_variable "biases" [num_out_channels]
                          (Some "zeros") dt) ;;
     fmt <- attr data_format ;;
     pre_activation <- lift_tf (TF.nn_bias_add conv biases fmt) ;;
     conv1 <- lift_tf (_activation pre_activation activation_method) ;;
     set_top_layer conv1 ;;
     set_num_top_channels num_out_channels ;;
     return_top).

Definition dropout (keep_prob : pynum) : M World (pyobj * Z) :=
  name <- _get_name "dropout" ;;
  train <- attr is_train_phase ;;
  let keep_prob := if negb train then PyFloat 1.0 else keep_prob in
  top <- attr top_layer ;;
  dropped <- lift_tf (TF.nn_dropout top keep_prob name) ;;
  set_top_layer dropped ;;
  return_top.

Definition fully_connected (num_out_channels : Z)
    (activation_method : option string) : M World (pyobj * Z) :=
  name <- _get_name "fc" ;;
  with_variable_scope name
    (num_in <- attr num_top_channels ;;
     let shape := [num_in; num_out_channels] in
     dt <- attr data_type ;;
     weights <- lift_tf (cnn_variable_default_init "weights" shape dt) ;;
     dt <- attr data_type ;;
     biases <- lift_tf (cnn_variable "biases" [num_out_channels]
                          (Some "zeros") dt) ;;
     top <- attr top_layer ;;
     product <- lift_tf (TF.matmul top weights) ;;
     pre_activation <- lift_tf (TF.add product biases) ;;
     fc <- lift_tf (_activation pre_activation activation_method) ;;
     set_top_layer fc ;;
     set_num_top_channels num_out_channels ;;
     return_top).

Definition max_pooling (pool_height pool_width vertical_stride
    horizontal_stride : Z) : M World (pyobj * Z) :=
  name <- _get_name "mpool" ;;
  let window := [1; pool_height; pool_width; 1] in
  let strides := [1; vertical_stride; horizontal_stride; 1] in
  top <- attr top_layer ;;
  padding <- attr padding_mode ;;
  fmt <- attr data_format ;;
  pool <- lift_tf (TF.nn_max_pool top window strides padding fmt name) ;;
  set_top_layer pool ;;
  return_top.

Definition normalization (depth_radius bias alpha beta : option pynum)
  : M World (pyobj * Z) :=
  name <- _get_name "norm" ;;
  top <- attr top_layer ;;
  norm <- lift_tf (TF.nn_local_response_normalization top depth_radius bias
                     alpha beta name) ;;
  set_top_layer norm ;;
  return_top.

Definition reshape (shape : list Z) : M World (pyobj * Z) :=
  name <- _get_name "reshape" ;;
  top <- attr top_layer ;;
  reshaped <- lift_tf (TF.reshape top shape name) ;;
  set_top_layer reshaped ;;
  last_entry <- lift_result (getitem shape (-1)) ;;
  set_num_top_channels last_entry ;;
  return_top.

(** The defaults of the signatures, for calls that leave arguments out. *)
Definition convolution_defaults (num_out_channels filter_height
    filter_width : Z) : M World (pyobj * Z) :=
  convolution num_out_channels filter_height filter_width 1 1 (Some "relu").

Definition dropout_defaults : M World (pyobj * Z) := dropout (PyFloat 0.5).

Definition fully_connected_defaults (num_out_channels : Z)
  : M World (pyobj * Z) :=
  fully_connected num_out_channels (Some "relu").

Definition max_pooling_defaults (pool_height pool_width : Z)
  : M World (pyobj * Z) :=
  max_pooling pool_height pool_width 2 2.

Definition normalization_defaults : M World (pyobj * Z) :=
  normalization None None None None.

(** A call of one of the layer-adding methods, with its arguments. *)
Inductive LayerCall : Type :=
| AddLayer (layer : pyobj) (num_layer_channels : Z)
| Convolution (num_out_channels filter_height filter_width vertical_stride
    horizontal_stride : Z) (activation_method : option string)
| DropoutCall (keep_prob : pynum)
| FullyConnected (num_out_channels : Z) (activation_method : option string)
| MaxPooling (pool_height pool_width vertical_stride horizontal_stride : Z)
| Normalization (depth_radius bias alpha beta : option pynum)
| ReshapeCall (shape : list Z).

Definition call (c : LayerCall) : M World (pyobj * Z) :=
  match c with
  | AddLayer layer n => add_layer layer n
  | Convolution n fh fw vs hs act => convolution n fh fw vs hs act
  | DropoutCall keep_prob => dropout keep_prob
  | FullyConnected n act => fully_connected n act
  | MaxPooling ph pw vs hs => max_pooling ph pw vs hs
  | Normalization depth_radius bias alpha beta =>
      normalization depth_radius bias alpha beta
  | ReshapeCall shape => reshape shape
  end.

End Builder.
Export Builder.

(** ** cnn/simple_model.py *)

Module SimpleModel.

(** Modelled from the spec: the base class [cnn.model.Model] is not among the
    sources. The spec calls the subclassing a trivial template method; of the
    base class only what [SimpleModel] relies on is kept: its constructor
    stores the name, the batch size and the number of classes it is given
    as attributes of the model. *)
Record Model : Type := mkModel {
  name : string;
  batch_size : Z;
  num_classes : Z
}.

(** [SimpleModel.__init__] *)
Definition __init__ (batch_size num_classes : Z) : Model :=
  mkModel "simple" batch_size num_classes.

(** [SimpleModel.inference]; the builder is the [self] of the world. *)
Definition inference (this : Model) : M World (pyobj * Z) :=
  convolution_defaults 64 3 3 ;;
  convolution_defaults 64 3 3 ;;
  normalization_defaults ;;
  max_pooling_defaults 3 3 ;;
  convolution_defaults 128 5 5 ;;
  normalization_defaults ;;
  max_pooling_defaults 3 3 ;;
  Builder.reshape [batch_size this; -1] ;;
  fully_connected_defaults 512 ;;
  fully_connected_defaults 256 ;;
  fully_connected_defaults (num_classes this).

End SimpleModel.


(** * The vocabulary of the properties *)

(** The calls into the framework that a computation adds to those already
    made. *)
Definition new_calls {A} (c : M World A) (w : World) : list pyobj :=
  drop (length (calls (tf w))) (calls (tf (snd (c w)))).

(** The name the next [_get_name prefix] hands out. *)
Definition next_name (prefix : string) (w : World) : string :=
  prefix +:+ pretty (layer_count (self w) prefix).

(** Fan-in and fan-out in the words of the specification: the last entry of
    the shape, and the entry before it (the last one again when there is
    only one), each times the product of all entries but the last two. *)
Definition product (dims : list Z) : Z := fold_right Z.mul 1 dims.

Definition leading_dims (shape : list Z) : list Z :=
  take (length shape - 2) shape.

Definition fan_out_of (shape : list Z) : Z :=
  List.last shape 0 * product (leading_dims shape).

Definition fan_in_of (shape : list Z) : Z :=
  (if Nat.eqb (length shape) 1 then List.last shape 0
   else nth (length shape - 2) shape 0) * product (leading_dims shape).

(** [(6 / (fan_in + fan_out)) ** 0.5] *)
Definition glorot_bound (shape : list Z) : pynum :=
  PyPow (PyTrueDiv 6 (fan_in_of shape + fan_out_of shape)) (PyFloat 0.5).

Definition initializer_table (shape : list Z) (dt : DType)
  : list (string * pyobj) :=
  [("glorot_uniform",
    RandomUniformInitializer (PyNeg (glorot_bound shape)) (glorot_bound shape)
      dt);
   ("zeros", ZerosInitializer dt)].

Definition activation_table (x : pyobj) : list (string * pyobj) :=
  [("linear", x); ("relu", Relu x); ("sigmoid", Sigmoid x);
   ("softmax", Softmax x); ("tanh", Tanh x)].

(** The keys of the two tables. *)
Definition activation_methods : list string :=
  ["linear"; "relu"; "sigmoid"; "softmax"; "tanh"].

Definition initializer_methods : list string := ["glorot_uniform"; "zeros"].

(** The strides in the order of the data format, as convolution is said to
    pass them. *)
Definition translated_strides (data_format : string)
    (vertical_stride horizontal_stride : Z) : list Z :=
  if String.eqb data_format "NCHW"
  then [1; 1; vertical_stride; horizontal_stride]
  else [1; vertical_stride; horizontal_stride; 1].

Definition glorot_initializer (shape : list Z) (dt : DType) : pyobj :=
  RandomUniformInitializer (PyNeg (glorot_bound shape)) (glorot_bound shape)
    dt.

(** The calls that create the variable [v]. *)
Definition creation_calls (shape : list Z) (dt : DType) (v : pyobj)
  : list pyobj :=
  [Device "/cpu:0"; glorot_initializer shape dt; ZerosInitializer dt; v].

Definition activation_calls (x : pyobj) : list pyobj :=
  [Relu x; Sigmoid x; Softmax x; Tanh x].

(** What [convolution] builds on the builder [b], inside the scopes [sc]:
    its two variables, the convolution call, the tensor the activation is
    applied to, the builder after the name was handed out and after the
    method is done, and the calls of a run that goes through. *)
Definition conv_scope (b : CNNBuilder) : string :=
  "conv" +:+ pretty (layer_count b "conv").

Definition conv_filter (num_out fh fw : Z) (b : CNNBuilder)
    (sc : list string) : pyobj :=
  VariableV2 (conv_scope b :: sc) (Some "/cpu:0") "filter"
    [fh; fw; num_top_channels b; num_out] (data_type b)
    (glorot_initializer [fh; fw; num_top_channels b; num_out] (data_type b)).

Definition conv_biases (num_out : Z) (b : CNNBuilder) (sc : list string)
  : pyobj :=
  VariableV2 (conv_scope b :: sc) (Some "/cpu:0") "biases" [num_out]
    (data_type b) (ZerosInitializer (data_type b)).

Definition conv_node (v h : Z) (b : CNNBuilder) (filter : pyobj) : pyobj :=
  Conv2D (top_layer b) filter (translated_strides (data_format b) v h)
    (padding_mode b) (data_format b).

Definition conv_pre_activation (num_out fh fw v h : Z) (b : CNNBuilder)
    (sc : list string) : pyobj :=
  BiasAdd (conv_node v h b (conv_filter num_out fh fw b sc))
    (conv_biases num_out b sc) (data_format b).

Definition conv_named (b : CNNBuilder) : CNNBuilder :=
  mkBuilder (top_layer b) (num_top_channels b) (is_train_phase b)
    (padding_mode b) (data_format b) (data_type b)
    (<["conv" := layer_count b "conv" + 1]> (layer_counts b)).

Definition conv_done (num_out : Z) (b : CNNBuilder) (out : pyobj)
  : CNNBuilder :=
  mkBuilder out num_out (is_train_phase b) (padding_mode b) (data_format b)
    (data_type b) (<["conv" := layer_count b "conv" + 1]> (layer_counts b)).

Definition conv_calls (num_out fh fw v h : Z) (b : CNNBuilder)
    (sc : list string) : list pyobj :=
  [VariableScope (conv_scope b)]
  ++ creation_calls [fh; fw; num_top_channels b; num_out] (data_type b)
       (conv_filter num_out fh fw b sc)
  ++ [conv_node v h b (conv_filter num_out fh fw b sc)]
  ++ creation_calls [num_out] (data_type b) (conv_biases num_out b sc)
  ++ [conv_pre_activation num_out fh fw v h b sc]
  ++ activation_calls (conv_pre_activation num_out fh fw v h b sc).

Definition is_conv2d (o : pyobj) : bool :=
  match o with
  | Conv2D _ _ _ _ _ => true
  | _ => false
  end.

(** The same for [fully_connected]. *)
Definition fc_scope (b : CNNBuilder) : string :=
  "fc" +:+ pretty (layer_count b "fc").

Definition fc_weights (num_out : Z) (b : CNNBuilder) (sc : list string)
  : pyobj :=
  VariableV2 (fc_scope b :: sc) (Some "/cpu:0") "weights"
    [num_top_channels b; num_out] (data_type b)
    (glorot_initializer [num_top_channels b; num_out] (data_type b)).

Definition fc_biases (num_out : Z) (b : CNNBuilder) (sc : list string)
  : pyobj :=
  VariableV2 (fc_scope b :: sc) (Some "/cpu:0") "biases" [num_out]
    (data_type b) (ZerosInitializer (data_type b)).

Definition fc_pre_activation (num_out : Z) (b : CNNBuilder)
    (sc : list string) : pyobj :=
  Add (MatMul (top_layer b) (fc_weights num_out b sc)) (fc_biases num_out b sc).

Definition fc_named (b : CNNBuilder) : CNNBuilder :=
  mkBuilder (top_layer b) (num_top_channels b) (is_train_phase b)
    (padding_mode b) (data_format b) (data_type b)
    (<["fc" := layer_count b "fc" + 1]> (layer_counts b)).

Definition fc_done (num_out : Z) (b : CNNBuilder) (out : pyobj) : CNNBuilder :=
  mkBuilder out num_out (is_train_phase b) (padding_mode b) (data_format b)
    (data_type b) (<["fc" := layer_count b "fc" + 1]> (layer_counts b)).

Definition fc_calls (num_out : Z) (b : CNNBuilder) (sc : list string)
  : list pyobj :=
  [VariableScope (fc_scope b)]
  ++ creation_calls [num_top_channels b; num_out] (data_type b)
       (fc_weights num_out b sc)
  ++ creation_calls [num_out] (data_type b) (fc_biases num_out b sc)
  ++ [MatMul (top_layer b) (fc_weights num_out b sc);
      fc_pre_activation num_out b sc]
  ++ activation_calls (fc_pre_activation num_out b sc).

(** Whenever [c] returns, [Q] holds of what it returns and of the builder it
    leaves. *)
Definition post (Q : pyobj * Z -> CNNBuilder -> Prop)
    (c : M World (pyobj * Z)) : Prop :=
  forall w r w', c w = (Ok r, w') -> Q r (self w').

(** The pair is the builder's cursor. *)
Definition is_cursor (r : pyobj * Z) (b : CNNBuilder) : Prop :=
  r = (top_layer b, num_top_channels b).

(** The pair is the builder's cursor, and the channel count is [n]. *)
Definition is_cursor_of (n : Z) (r : pyobj * Z) (b : CNNBuilder) : Prop :=
  r = (top_layer b, n) /\ num_top_channels b = n.

(** Conditions under which a call returns: the top layer is a tensor; where
    variables are created the data type is floating point and no fan sum is
    zero; the activation is one of the table, or left out; a shape to
    reshape to is not empty. *)
Definition can_return (c : LayerCall) (b : CNNBuilder) : Prop :=
  match c with
  | AddLayer _ _ => True
  | Convolution num_out fh fw _ _ act =>
      is_floating (data_type b) = true
      /\ is_tensor (top_layer b) = true
      /\ (num_top_channels b + num_out) * (fh * fw) <> 0
      /\ num_out + num_out <> 0
      /\ In (or_default act "linear") activation_methods
  | FullyConnected num_out act =>
      is_floating (data_type b) = true
      /\ is_tensor (top_layer b) = true
      /\ num_top_channels b + num_out <> 0
      /\ num_out + num_out <> 0
      /\ In (or_default act "linear") activation_methods
  | DropoutCall _ | MaxPooling _ _ _ _ | Normalization _ _ _ _ =>
      is_tensor (top_layer b) = true
  | ReshapeCall shape => is_tensor (top_layer b) = true /\ shape <> []
  end.

(** The layers of the simple model as the specification lists them, all but
    the last; an argument the listing leaves out is the default of the
    method's signature. *)
Definition simple_model_layers (this : SimpleModel.Model) : list LayerCall :=
  [Convolution 64 3 3 1 1 (Some "relu");
   Convolution 64 3 3 1 1 (Some "relu");
   Normalization None None None None;
   MaxPooling 3 3 2 2;
   Convolution 128 5 5 1 1 (Some "relu");
   Normalization None None None None;
   MaxPooling 3 3 2 2;
   ReshapeCall [SimpleModel.batch_size this; -1];
   FullyConnected 512 (Some "relu");
   FullyConnected 256 (Some "relu")].

Definition simple_model_last_layer (this : SimpleModel.Model) : LayerCall :=
  FullyConnected (SimpleModel.num_classes this) (Some "relu").

(** The same layers in three parts: the seven before the reshape, the
    reshape, and the two fully connected layers after it. *)
Definition simple_model_features : list LayerCall :=
  [Convolution 64 3 3 1 1 (Some "relu");
   Convolution 64 3 3 1 1 (Some "relu");
   Normalization None None None None;
   MaxPooling 3 3 2 2;
   Convolution 128 5 5 1 1 (Some "relu");
   Normalization None None None None;
   MaxPooling 3 3 2 2].

Definition simple_model_reshape (this : SimpleModel.Model) : LayerCall :=
  ReshapeCall [SimpleModel.batch_size this; -1].

Definition simple_model_dense : list LayerCall :=
  [FullyConnected 512 (Some "relu"); FullyConnected 256 (Some "relu")].

(** The calls of [layers] in order, then [last_layer], whose result is the
    result; a call that raises ends the run. *)
Definition in_order (layers : list LayerCall) (last_layer : LayerCall)
  : M World (pyobj * Z) :=
  fold_right (fun c rest => call c ;; rest) (call last_layer) layers.

(** How many of the calls [_get_name(p)], for [p] running through
    [prefixes], are calls with [prefix]. *)
Fixpoint count_calls (prefix : string) (prefixes : list string) : Z :=
  match prefixes with
  | [] => 0
  | p :: rest =>
      (if String.eqb p prefix then 1 else 0) + count_calls prefix rest
  end.

(** [_get_name(p)] for each [p] of [prefixes] in turn, collecting the
    names. *)
Fixpoint get_names (prefixes : list string) : M World (list string) :=
  match prefixes with
  | [] => ret []
  | p :: rest =>
      name <- _get_name p ;;
      names <- get_names rest ;;
      ret (name :: names)
  end.

(** The prefix a layer-adding method asks a name for. *)
Definition requested_prefix (c : LayerCall) : list string :=
  match c with
  | AddLayer _ _ => []
  | Convolution _ _ _ _ _ _ => ["conv"]
  | DropoutCall _ => ["dropout"]
  | FullyConnected _ _ => ["fc"]
  | MaxPooling _ _ _ _ => ["mpool"]
  | Normalization _ _ _ _ => ["norm"]
  | ReshapeCall _ => ["reshape"]
  end.

Definition keeps_counts {X} (c : M World X) : Prop :=
  forall w, layer_counts (self (snd (c w))) = layer_counts (self w).


(** * Properties *)

(** ** Running the pieces *)

Lemma drop_calls_app {A} (l new : list A) : drop (length l) (l ++ new) = new.
Proof. induction l; simpl; auto. Qed.

Ltac run_method :=
  unfold new_calls, dropout, max_pooling, normalization, reshape, add_layer,
    _get_name, return_top, set_layer_count, set_top_layer,
    set_num_top_channels, attr, lift_tf, lift_result, bind, ret,
    TF.nn_dropout, TF.nn_max_pool, TF.nn_local_response_normalization,
    TF.reshape, TF.op, record_call, next_name;
  cbn [self tf fst snd calls scopes devices top_layer num_top_channels
       is_train_phase padding_mode data_format data_type layer_counts
       forallb andb].

(** ** Dropout *)

(** C10. Outside the training phase [dropout] calls the framework's dropout
    with [keep_prob] 1.0 whatever the caller passed, so that the whole
    outcome does not depend on the argument; in the training phase the
    caller's [keep_prob] is passed on as given. Either way exactly this one
    call is made and [num_top_channels] stays what it was. *)
Theorem dropout_keep_prob (keep_prob : pynum) (w : World) :
  (is_train_phase (self w) = false ->
     new_calls (dropout keep_prob) w =
       [Dropout (top_layer (self w)) (PyFloat 1.0) (next_name "dropout" w)]
     /\ forall other : pynum, dropout keep_prob w = dropout other w)
  /\ (is_train_phase (self w) = true ->
     new_calls (dropout keep_prob) w =
       [Dropout (top_layer (self w)) keep_prob (next_name "dropout" w)])
  /\ num_top_channels (self (snd (dropout keep_prob w))) =
       num_top_channels (self w).
Proof.
  destruct w as [b t]. cbn [self]. split; [| split].
  - intros Htest. split.
    + run_method. rewrite Htest. cbn [negb].
      destruct (is_tensor (top_layer b)); cbn; apply drop_calls_app.
    + intros other. run_method. rewrite Htest. reflexivity.
  - intros Htrain. run_method. rewrite Htrain. cbn [negb].
    destruct (is_tensor (top_layer b)); cbn; apply drop_calls_app.
  - run_method. destruct (is_tensor (top_layer b)); reflexivity.
Qed.

Lemma dropout_keep_prob_witness :
  let w := mkWorld (__init__defaults (Placeholder "images" [8; 3; 4; 4]) 3
                      false) TF0 in
  new_calls (dropout (PyFloat 0.5)) w =
    [Dropout (Placeholder "images" [8; 3; 4; 4]) (PyFloat 1.0) "dropout0"]
  /\ dropout (PyFloat 0.5) w = dropout (PyFloat 0.25) w.
Proof.
  intros w.
  destruct (dropout_keep_prob (PyFloat 0.5) w) as [Htest _].
  destruct (Htest eq_refl) as [Hcalls Hsame].
  split; [exact Hcalls | exact (Hsame (PyFloat 0.25))].
Defined.

(** ** Pooling *)

(** C2. Whatever the data format, ['NCHW'] included, [max_pooling] makes one
    framework call, and hands [max_pool] the window
    [[1, pool_height, pool_width, 1]] and the strides
    [[1, vertical_stride, horizontal_stride, 1]] in that order: nothing is
    reordered for ['NCHW']. *)
Theorem max_pooling_window_not_reordered
    (pool_height pool_width vertical_stride horizontal_stride : Z)
    (w : World) :
  new_calls
    (max_pooling pool_height pool_width vertical_stride horizontal_stride) w =
    [MaxPool (top_layer (self w)) [1; pool_height; pool_width; 1]
       [1; vertical_stride; horizontal_stride; 1] (padding_mode (self w))
       (data_format (self w)) (next_name "mpool" w)].
Proof.
  destruct w as [b t]. run_method.
  destruct (is_tensor (top_layer b)); cbn; apply drop_calls_app.
Qed.

(** The default builder is ['NCHW']; pooling 3 by 3 with strides 2 by 2
    there passes [[1, 3, 3, 1]] and [[1, 2, 2, 1]], where the order of
    ['NCHW'] would be [[1, 1, 3, 3]] and [[1, 1, 2, 2]]. *)
Example max_pooling_NCHW :
  new_calls (max_pooling_defaults 3 3)
    (mkWorld (__init__defaults (Placeholder "images" [8; 3; 4; 4]) 3 false)
       TF0) =
    [MaxPool (Placeholder "images" [8; 3; 4; 4]) [1; 3; 3; 1] [1; 2; 2; 1]
       "SAME" "NCHW" "mpool0"].
Proof. reflexivity. Qed.

(** ** Variables *)

(** C3. For a data type that is not floating point [cnn_variable] makes no
    framework call and creates no variable, but it raises nothing either:
    the [TypeError] instance is the value it returns. *)
Theorem cnn_variable_returns_type_error (name : string) (shape : list Z)
    (init_method : option string) (data_type : DType) (t : TFState) :
  is_floating data_type = false ->
  cnn_variable name shape init_method data_type t =
    (Ok (ExcInstance
           (TypeError "Variables must be initialized as floating point.")),
     t).
Proof. intros H. unfold cnn_variable. rewrite H. reflexivity. Qed.

Lemma cnn_variable_returns_type_error_witness :
  cnn_variable "filter" [3; 3; 1; 64] (Some "glorot_uniform") int32 TF0 =
    (Ok (ExcInstance
           (TypeError "Variables must be initialized as floating point.")),
     TF0).
Proof.
  apply (cnn_variable_returns_type_error "filter" [3; 3; 1; 64]
           (Some "glorot_uniform") int32 TF0).
  reflexivity.
Defined.

(** ** Lists as Python reads them *)

Lemma shape_cases {A} (l : list A) :
  l = [] \/ (exists x, l = [x]) \/ (exists l' y x, l = l' ++ [y; x]).
Proof.
  destruct l as [|x l _] using rev_ind; [now left | right].
  destruct l as [|y l _] using rev_ind; [left; now exists x | right].
  exists l, y, x. now rewrite <- app_assoc.
Qed.

Lemma len_app2 {A} (l : list A) (y x : A) :
  len (l ++ [y; x]) = Z.of_nat (length l) + 2.
Proof. unfold len. rewrite length_app. cbn [length]. lia. Qed.

Lemma getitem_from_end {A} (l : list A) (y x : A) :
  getitem (l ++ [y; x]) (-1) = Ok x /\ getitem (l ++ [y; x]) (-2) = Ok y.
Proof.
  unfold getitem. cbn [Z.ltb Z.compare]. rewrite len_app2.
  split.
  - destruct (Z.ltb_spec (Z.of_nat (length l) + 2 + -1) 0); [lia |].
    replace (Z.to_nat (Z.of_nat (length l) + 2 + -1)) with (length l + 1)%nat
      by lia.
    rewrite nth_error_app2 by lia.
    replace (length l + 1 - length l)%nat with 1%nat by lia. reflexivity.
  - destruct (Z.ltb_spec (Z.of_nat (length l) + 2 + -2) 0); [lia |].
    replace (Z.to_nat (Z.of_nat (length l) + 2 + -2)) with (length l + 0)%nat
      by lia.
    rewrite nth_error_app2 by lia.
    replace (length l + 0 - length l)%nat with 0%nat by lia. reflexivity.
Qed.

Lemma slice_to_app2 {A} (l : list A) (y x : A) :
  slice_to (l ++ [y; x]) (-2) = l.
Proof.
  unfold slice_to. cbn [Z.ltb Z.compare]. rewrite len_app2.
  replace (Z.to_nat (Z.max (Z.of_nat (length l) + 2 + -2) 0)) with (length l)
    by lia.
  rewrite firstn_app, Nat.sub_diag, firstn_all. cbn [firstn].
  apply app_nil_r.
Qed.

(** ** The initializer *)

Lemma fan_loop_product (dims : list Z) (fan_in fan_out : Z) :
  fan_loop dims fan_in fan_out =
    (fan_in * product dims, fan_out * product dims).
Proof.
  unfold fan_loop. revert fan_in fan_out.
  induction dims as [|d dims IH]; intros fan_in fan_out;
    cbn [fold_left product fold_right].
  - now rewrite !Z.mul_1_r.
  - rewrite IH. unfold product. cbn [fold_right]. f_equal; ring.
Qed.

(** What the first lines of [_initializer] compute on a shape that is not
    empty. *)
Lemma fans_of_shape (shape : list Z) :
  shape <> [] ->
  exists fan_in fan_out,
    (if 1 <? len shape then getitem shape (-2) else getitem shape (-1)) =
      Ok fan_in
    /\ getitem shape (-1) = Ok fan_out
    /\ fan_loop (slice_to shape (-2)) fan_in fan_out =
         (fan_in_of shape, fan_out_of shape).
Proof.
  intros Hne.
  destruct (shape_cases shape) as [-> | [[x ->] | (l & y & x & ->)]];
    [congruence | |].
  - exists x, x. repeat split. rewrite fan_loop_product. reflexivity.
  - destruct (getitem_from_end l y x) as [H1 H2].
    exists y, x. rewrite H1, H2, len_app2, slice_to_app2, fan_loop_product.
    destruct (Z.ltb_spec 1 (Z.of_nat (length l) + 2)); [| lia].
    repeat split.
    unfold fan_in_of, fan_out_of, leading_dims.
    rewrite length_app; cbn [length].
    replace (length l + 2 - 2)%nat with (length l) by lia.
    replace (length l + 2 =? 1)%nat with false
      by (symmetry; apply Nat.eqb_neq; lia).
    rewrite app_nth2, Nat.sub_diag by lia. cbn [nth].
    rewrite firstn_app, Nat.sub_diag, firstn_all. cbn [firstn].
    rewrite app_nil_r.
    replace (l ++ [y; x]) with ((l ++ [y]) ++ [x]) by now rewrite <- app_assoc.
    now rewrite List.last_last.
Qed.

Lemma _initializer_run shape dt method sc dv cs :
  shape <> [] ->
  fan_in_of shape + fan_out_of shape <> 0 ->
  _initializer shape dt method (mkTF sc dv cs) =
    (dict_getitem (initializer_table shape dt) (or_default method "zeros"),
     mkTF sc dv
       (cs ++ [RandomUniformInitializer (PyNeg (glorot_bound shape))
                 (glorot_bound shape) dt;
               ZerosInitializer dt])).
Proof.
  intros Hne Hsum.
  destruct (fans_of_shape shape Hne) as (a & b & Ha & Hb & Hloop).
  unfold _initializer, lift_result, bind. rewrite Ha, Hb, Hloop.
  unfold truediv. destruct (Z.eqb_spec (fan_in_of shape + fan_out_of shape) 0);
    [contradiction |].
  unfold TF.random_uniform_initializer, TF.zeros_initializer, record_call.
  cbn [scopes devices calls]. now rewrite <- app_assoc.
Qed.

Lemma _initializer_zero_sum shape dt method t :
  shape <> [] ->
  fan_in_of shape + fan_out_of shape = 0 ->
  _initializer shape dt method t = (Raise ZeroDivisionError, t).
Proof.
  intros Hne Hsum.
  destruct (fans_of_shape shape Hne) as (a & b & Ha & Hb & Hloop).
  unfold _initializer, lift_result, bind. rewrite Ha, Hb, Hloop.
  unfold truediv. now rewrite Hsum.
Qed.

Lemma _initializer_empty dt method t :
  _initializer [] dt method t = (Raise IndexError, t).
Proof. reflexivity. Qed.

Lemma _activation_run x method sc dv cs :
  is_tensor x = true ->
  _activation x method (mkTF sc dv cs) =
    (dict_getitem (activation_table x) (or_default method "linear"),
     mkTF sc dv (cs ++ [Relu x; Sigmoid x; Softmax x; Tanh x])).
Proof.
  intros Hx.
  unfold _activation, lift_result, bind, TF.nn_relu, TF.nn_sigmoid,
    TF.nn_softmax, TF.nn_tanh, TF.op, record_call.
  cbn [forallb scopes devices calls]. rewrite Hx. cbn [andb].
  now rewrite <- !app_assoc.
Qed.

Lemma dict_getitem_ok {V} (d : list (string * V)) key :
  In key (map fst d) -> exists v, dict_getitem d key = Ok v.
Proof.
  induction d as [|[k v] d IH]; cbn [map fst In dict_getitem]; [tauto |].
  intros [-> | Hin].
  - rewrite String.eqb_refl. eauto.
  - destruct (String.eqb k key); eauto.
Qed.

Lemma dict_getitem_missing {V} (d : list (string * V)) key :
  ~ In key (map fst d) -> dict_getitem d key = Raise (KeyError key).
Proof.
  induction d as [|[k v] d IH]; cbn [map fst In dict_getitem]; [tauto |].
  intros Hnot. destruct (String.eqb_spec k key); [tauto |].
  apply IH. tauto.
Qed.

Lemma or_default_truthy (method d : string) :
  method <> "" -> or_default (Some method) d = method.
Proof.
  intros H. unfold or_default.
  destruct (String.eqb_spec method ""); [contradiction | reflexivity].
Qed.

(** C5 (amended). On a tensor, [_activation] raises [KeyError] for every
    non-empty method string outside ['linear', 'relu', 'sigmoid', 'softmax',
    'tanh'] and returns the table's entry for the five inside. On a shape
    that is not empty and whose fan-in and fan-out do not sum to zero,
    [_initializer] raises [KeyError] for every non-empty method string outside
    ['glorot_uniform', 'zeros'] and returns the entry for the two inside.
    [None] and the empty string behave as ['linear'], respectively ['zeros'],
    and do not fail. *)
Theorem option_table_lookups (x : pyobj) (shape : list Z) (dt : DType)
    (t : TFState) :
  is_tensor x = true ->
  shape <> [] ->
  fan_in_of shape + fan_out_of shape <> 0 ->
  (forall method, method <> "" -> ~ In method activation_methods ->
     fst (_activation x (Some method) t) = Raise (KeyError method))
  /\ (forall method, In method activation_methods ->
        exists v, fst (_activation x (Some method) t) = Ok v)
  /\ (_activation x None t = _activation x (Some "linear") t
      /\ _activation x (Some "") t = _activation x (Some "linear") t
      /\ fst (_activation x (Some "linear") t) = Ok x)
  /\ (forall method, method <> "" -> ~ In method initializer_methods ->
        fst (_initializer shape dt (Some method) t) = Raise (KeyError method))
  /\ (forall method, In method initializer_methods ->
        exists v, fst (_initializer shape dt (Some method) t) = Ok v)
  /\ (_initializer shape dt None t = _initializer shape dt (Some "zeros") t
      /\ _initializer shape dt (Some "") t =
           _initializer shape dt (Some "zeros") t
      /\ fst (_initializer shape dt (Some "zeros") t) =
           Ok (ZerosInitializer dt)).
Proof.
  intros Hx Hne Hsum. destruct t as [sc dv cs].
  repeat match goal with |- _ /\ _ => split end.
  - intros method Htruthy Hnot.
    rewrite _activation_run, or_default_truthy by assumption.
    now apply dict_getitem_missing.
  - intros method Hin. rewrite _activation_run by assumption.
    apply dict_getitem_ok.
    cbn in Hin. unfold or_default.
    decompose [or] Hin; subst; cbn; tauto.
  - reflexivity.
  - reflexivity.
  - now rewrite _activation_run.
  - intros method Htruthy Hnot.
    rewrite _initializer_run, or_default_truthy by assumption.
    now apply dict_getitem_missing.
  - intros method Hin. rewrite _initializer_run by assumption.
    apply dict_getitem_ok.
    cbn in Hin. unfold or_default.
    decompose [or] Hin; subst; cbn; tauto.
  - reflexivity.
  - reflexivity.
  - now rewrite _initializer_run.
Qed.

Lemma option_table_lookups_witness :
  fst (_activation (Placeholder "images" [8; 3; 4; 4]) (Some "swish") TF0) =
    Raise (KeyError "swish")
  /\ fst (_initializer [3; 3; 1; 64] float32 (Some "ones") TF0) =
       Raise (KeyError "ones").
Proof.
  destruct (option_table_lookups (Placeholder "images" [8; 3; 4; 4])
              [3; 3; 1; 64] float32 TF0)
    as (Hact & _ & _ & Hinit & _).
  - reflexivity.
  - discriminate.
  - vm_compute. discriminate.
  - split.
    + apply Hact; [discriminate |].
      cbn. intros H. decompose [or] H; discriminate || assumption.
    + apply Hinit; [discriminate |].
      cbn. intros H. decompose [or] H; discriminate || assumption.
Defined.

(** With no method given and a shape whose fan-in and fan-out are both 0,
    [_initializer] does fail: with the division by zero that comes before
    the lookup. *)
Lemma initializer_default_method_fails :
  fst (_initializer [0] float32 None TF0) = Raise ZeroDivisionError
  /\ is_ok (fst (_initializer [0] float32 None TF0)) = false.
Proof. split; reflexivity. Qed.

(** C7. Whenever [_initializer] returns for ['glorot_uniform'], what it
    returns is the uniform initializer on [[-b, b]],
    [b = (6 / (fan_in + fan_out)) ** 0.5], with fan-out the last entry of
    the shape times the product of [shape[:-2]] and fan-in the entry before
    the last (the last one for a shape of one entry) times the same product;
    whenever it returns for ['zeros'], what it returns is the zero-fill
    initializer. It does return, for both, on every shape that is not empty
    and whose fan-in and fan-out do not sum to zero. *)
Theorem initializer_glorot_and_zeros (shape : list Z) (dt : DType)
    (t : TFState) :
  let b :=
    PyPow (PyTrueDiv 6 (fan_in_of shape + fan_out_of shape)) (PyFloat 0.5) in
  (forall r,
     fst (_initializer shape dt (Some "glorot_uniform") t) = Ok r ->
     r = RandomUniformInitializer (PyNeg b) b dt)
  /\ (forall r,
        fst (_initializer shape dt (Some "zeros") t) = Ok r ->
        r = ZerosInitializer dt)
  /\ (shape <> [] ->
      fan_in_of shape + fan_out_of shape <> 0 ->
      fst (_initializer shape dt (Some "glorot_uniform") t) =
        Ok (RandomUniformInitializer (PyNeg b) b dt)
      /\ fst (_initializer shape dt (Some "zeros") t) =
           Ok (ZerosInitializer dt)).
Proof.
  intros b. destruct t as [sc dv cs].
  assert (shape <> [] ->
          fan_in_of shape + fan_out_of shape <> 0 ->
          fst (_initializer shape dt (Some "glorot_uniform") (mkTF sc dv cs)) =
            Ok (RandomUniformInitializer (PyNeg b) b dt)
          /\ fst (_initializer shape dt (Some "zeros") (mkTF sc dv cs)) =
               Ok (ZerosInitializer dt)) as Hreturns.
  { intros Hne Hsum. rewrite !_initializer_run by assumption.
    split; reflexivity. }
  assert (shape = [] \/ shape <> []) as [Hnil | Hne]
    by (destruct shape; [left | right]; congruence).
  { subst shape. rewrite !_initializer_empty. cbn [fst].
    split; [| split]; [intros r H; discriminate H .. | congruence]. }
  destruct (Z.eq_dec (fan_in_of shape + fan_out_of shape) 0) as [Hzero | Hsum].
  - rewrite !_initializer_zero_sum by assumption. cbn [fst].
    split; [| split]; [intros r H; discriminate H .. | congruence].
  - destruct (Hreturns Hne Hsum) as [Hglorot Hzeros].
    rewrite Hglorot, Hzeros.
    split; [| split]; [intros r [= <-]; reflexivity .. | now intros _ _].
Qed.

Lemma initializer_glorot_and_zeros_witness :
  fst (_initializer [5; 5; 64; 128] float32 (Some "glorot_uniform") TF0) =
    Ok (RandomUniformInitializer
          (PyNeg (PyPow (PyTrueDiv 6 4800) (PyFloat 0.5)))
          (PyPow (PyTrueDiv 6 4800) (PyFloat 0.5)) float32)
  /\ fst (_initializer [5; 5; 64; 128] float32 (Some "zeros") TF0) =
       Ok (ZerosInitializer float32).
Proof.
  apply (initializer_glorot_and_zeros [5; 5; 64; 128] float32 TF0).
  - discriminate.
  - vm_compute. discriminate.
Defined.

(** The bound is computed whatever the method: for ['zeros'] and the shape
    [[0]] no initializer is returned, the quotient [6 / (0 + 0)] raises
    first. *)
Lemma initializer_zeros_raises_on_zero_fan :
  _initializer [0] float32 (Some "zeros") TF0 = (Raise ZeroDivisionError, TF0).
Proof. reflexivity. Qed.

(** ** Reshape *)

(** C1. On a tensor of a known shape, [reshape([batch, -1])] with a positive
    batch size returns normally and records -1 as the channel count, while
    the last dimension of the tensor that [tf.reshape] yields is the number
    of elements divided by the batch size, which is not negative: the
    recorded count is not the size of the last dimension. *)
Theorem reshape_wildcard_channel_count (b : CNNBuilder) (t : TFState)
    (input_shape : list Z) (batch : Z) :
  static_shape (top_layer b) = Some input_shape ->
  is_tensor (top_layer b) = true ->
  Forall (fun d => 0 <= d) input_shape ->
  0 < batch ->
  let '(r, w') := reshape [batch; -1] (mkWorld b t) in
  r = Ok (top_layer (self w'), -1)
  /\ num_top_channels (self w') = -1
  /\ last_dimension (top_layer (self w')) =
       Some (num_elements input_shape / batch)
  /\ last_dimension (top_layer (self w')) <> Some (num_top_channels (self w')).
Proof.
  intros Hshape Htensor Hdims Hbatch.
  assert (last_dimension
            (Reshape (top_layer b) [batch; -1]
               (next_name "reshape" (mkWorld b t))) =
          Some (num_elements input_shape / batch)) as Hlast.
  { unfold last_dimension. cbn [static_shape]. rewrite Hshape.
    unfold reshape_shape. cbn [List.filter existsb map].
    change (-1 =? -1) with true. change (-1 <? -1) with false.
    destruct (Z.ltb_spec batch (-1)); [lia |].
    destruct (Z.eqb_spec batch (-1)); [lia |].
    cbn [negb orb num_elements fold_right].
    destruct (Z.eqb_spec (batch * 1) 0); [lia |].
    cbn [last]. do 2 f_equal. lia. }
  unfold next_name in Hlast. cbn [self] in Hlast.
  run_method. rewrite Htensor. cbn -[last_dimension pretty String.append].
  cbn [self top_layer num_top_channels].
  repeat split; cbn [self top_layer num_top_channels]; try assumption.
  rewrite Hlast.
  intros [= Heq].
  assert (0 <= num_elements input_shape).
  { clear -Hdims. induction Hdims; cbn; [lia |].
    unfold num_elements in IHHdims. nia. }
  assert (0 <= num_elements input_shape / batch) by (apply Z.div_pos; lia).
  lia.
Qed.

Lemma reshape_wildcard_channel_count_witness :
  let '(r, w') :=
    reshape [2; -1]
      (mkWorld (__init__defaults (Placeholder "images" [2; 3; 4; 5]) 3 false)
         TF0) in
  num_top_channels (self w') = -1
  /\ last_dimension (top_layer (self w')) = Some 60.
Proof.
  pose proof (reshape_wildcard_channel_count
                (__init__defaults (Placeholder "images" [2; 3; 4; 5]) 3 false)
                TF0 [2; 3; 4; 5] 2) as H.
  cbv beta zeta in H.
  destruct (reshape [2; -1] _) as [r w'].
  destruct H as (_ & Hn & Hl & _).
  - reflexivity.
  - reflexivity.
  - repeat constructor; lia.
  - lia.
  - split; [exact Hn | exact Hl].
Defined.

(** ** Running a method step by step *)

Lemma bind_attr {X B} (f : CNNBuilder -> X) (k : X -> M World B) w :
  bind (attr f) k w = k (f (self w)) w.
Proof. reflexivity. Qed.

Lemma bind_ret {S X B} (x : X) (k : X -> M S B) s : bind (ret x) k s = k x s.
Proof. reflexivity. Qed.

Lemma bind_set_top_layer {B} v (k : unit -> M World B) w :
  bind (set_top_layer v) k w = k tt (snd (set_top_layer v w)).
Proof. reflexivity. Qed.

Lemma bind_set_num_top_channels {B} n (k : unit -> M World B) w :
  bind (set_num_top_channels n) k w = k tt (snd (set_num_top_channels n w)).
Proof. reflexivity. Qed.

Lemma bind_get_name {B} prefix (k : string -> M World B) w :
  bind (_get_name prefix) k w =
    k (next_name prefix w)
      (snd (set_layer_count prefix (layer_count (self w) prefix + 1) w)).
Proof. reflexivity. Qed.

Lemma bind_lift_tf {X B} (c : M TFState X) (k : X -> M World B) w r t' :
  c (tf w) = (r, t') ->
  bind (lift_tf c) k w =
    match r with
    | Ok x => k x (mkWorld (self w) t')
    | Raise e => (Raise e, mkWorld (self w) t')
    end.
Proof. intros H. unfold bind, lift_tf. rewrite H. now destruct r. Qed.

Lemma op_run args node sc dv cs :
  TF.op args node (mkTF sc dv cs) =
    (if forallb is_tensor args then Ok node else Raise not_a_tensor,
     mkTF sc dv (cs ++ [node])).
Proof. reflexivity. Qed.

Lemma with_variable_scope_run {X} name (body : M World X) b sc dv cs :
  with_variable_scope name body (mkWorld b (mkTF sc dv cs)) =
    let '(r, w') :=
      body (mkWorld b (mkTF (name :: sc) dv (cs ++ [VariableScope name]))) in
    (r, mkWorld (self w')
          (mkTF (tail (scopes (tf w'))) (devices (tf w')) (calls (tf w')))).
Proof.
  unfold with_variable_scope, with_block, lift_tf, TF.variable_scope_enter,
    TF.variable_scope_exit.
  cbn [tf self scopes devices calls].
  destruct (body _) as [r w']. reflexivity.
Qed.

(** [strides = [strides[0], strides[3], strides[1], strides[2]]] *)
Lemma reorder_strides {B} (a b c d : Z) (k : list Z -> M World B) w :
  bind (s0 <- lift_result (getitem [a; b; c; d] 0) ;;
        s3 <- lift_result (getitem [a; b; c; d] 3) ;;
        s1 <- lift_result (getitem [a; b; c; d] 1) ;;
        s2 <- lift_result (getitem [a; b; c; d] 2) ;;
        ret [s0; s3; s1; s2]) k w = k [a; d; b; c] w.
Proof. reflexivity. Qed.

(** *** Variables *)

Lemma cnn_variable_not_floating name shape method dt t :
  is_floating dt = false ->
  cnn_variable name shape method dt t =
    (Ok (ExcInstance
           (TypeError "Variables must be initialized as floating point.")),
     t).
Proof. intros H. unfold cnn_variable. rewrite H. reflexivity. Qed.

Lemma cnn_variable_run name shape method dt sc dv cs init :
  is_floating dt = true ->
  shape <> [] ->
  fan_in_of shape + fan_out_of shape <> 0 ->
  dict_getitem (initializer_table shape dt) (or_default method "zeros") =
    Ok init ->
  cnn_variable name shape method dt (mkTF sc dv cs) =
    (Ok (VariableV2 sc (Some "/cpu:0") name shape dt init),
     mkTF sc dv
       (cs ++ [Device "/cpu:0";
               RandomUniformInitializer (PyNeg (glorot_bound shape))
                 (glorot_bound shape) dt;
               ZerosInitializer dt;
               VariableV2 sc (Some "/cpu:0") name shape dt init])).
Proof.
  intros Hf Hne Hsum Hinit. unfold cnn_variable, with_block, TF.device_enter.
  rewrite Hf. cbn [negb scopes devices calls].
  unfold bind at 1. rewrite _initializer_run, Hinit by assumption.
  unfold bind, TF.get_variable, ret, record_call, TF.device_exit.
  cbn [scopes devices calls head tail]. now rewrite <- !app_assoc.
Qed.

Lemma cnn_variable_zero_sum name shape method dt sc dv cs :
  is_floating dt = true ->
  shape <> [] ->
  fan_in_of shape + fan_out_of shape = 0 ->
  cnn_variable name shape method dt (mkTF sc dv cs) =
    (Raise ZeroDivisionError, mkTF sc dv (cs ++ [Device "/cpu:0"])).
Proof.
  intros Hf Hne Hsum. unfold cnn_variable, with_block, TF.device_enter.
  rewrite Hf. cbn [negb scopes devices calls].
  unfold bind at 1. rewrite _initializer_zero_sum by assumption.
  reflexivity.
Qed.

(** The fans of the two shapes convolution and the fully connected layer
    create variables with. *)
Lemma fans_filter (fh fw cin cout : Z) :
  fan_in_of [fh; fw; cin; cout] + fan_out_of [fh; fw; cin; cout] =
    (cin + cout) * (fh * fw).
Proof. unfold fan_in_of, fan_out_of, leading_dims, product. cbn. ring. Qed.

Lemma fans_weights (cin cout : Z) :
  fan_in_of [cin; cout] + fan_out_of [cin; cout] = cin + cout.
Proof. unfold fan_in_of, fan_out_of, leading_dims, product. cbn. ring. Qed.

Lemma fans_biases (cout : Z) :
  fan_in_of [cout] + fan_out_of [cout] = cout + cout.
Proof. unfold fan_in_of, fan_out_of, leading_dims, product. cbn. ring. Qed.

(** *** Convolution and the fully connected layer, step by step *)

Ltac proj :=
  cbn [self tf fst snd calls scopes devices top_layer num_top_channels
       is_train_phase padding_mode data_format data_type layer_counts
       set_top_layer set_num_top_channels set_layer_count next_name head tail].

Ltac exec :=
  proj;
  repeat (first
            [ rewrite bind_attr
            | rewrite bind_get_name
            | rewrite bind_set_top_layer
            | rewrite bind_set_num_top_channels
            | rewrite bind_ret
            | rewrite reorder_strides ];
          proj).

(** One framework call over tensors. *)
Ltac step_op :=
  unfold TF.nn_conv2d, TF.nn_bias_add, TF.matmul, TF.add;
  erewrite bind_lift_tf; [| proj; apply op_run];
  cbn [forallb is_tensor andb];
  repeat match goal with
         | H : is_tensor _ = _ |- _ => rewrite H
         end;
  cbn [andb]; exec.

(** One variable, created. *)
Ltac step_variable :=
  unfold cnn_variable_default_init;
  erewrite bind_lift_tf;
  [| proj; apply cnn_variable_run;
     [ assumption
     | discriminate
     | rewrite ?fans_filter, ?fans_weights, ?fans_biases; assumption
     | reflexivity ]];
  exec.

(** One variable, its creation stopped by the division. *)
Ltac step_variable_zero :=
  unfold cnn_variable_default_init;
  erewrite bind_lift_tf;
  [| proj; apply cnn_variable_zero_sum;
     [ assumption
     | discriminate
     | rewrite ?fans_filter, ?fans_weights, ?fans_biases; assumption ]];
  exec.

(** One variable asked for with a data type that is not floating point. *)
Ltac step_variable_not_floating :=
  unfold cnn_variable_default_init;
  erewrite bind_lift_tf;
  [| proj; apply cnn_variable_not_floating; assumption];
  exec.

Ltac finish_run := rewrite <- ?app_assoc; cbn [app]; reflexivity.

Section ConvolutionRun.

Variables (num_out fh fw v h : Z) (act : option string).
Variables (b : CNNBuilder) (sc dv : list string) (cs : list pyobj).

Lemma reordered_or_not (X : Type) (k : list Z -> M World X) (w : World) :
  bind (if String.eqb (data_format b) "NCHW"
        then
          s0 <- lift_result (getitem [1; v; h; 1] 0) ;;
          s3 <- lift_result (getitem [1; v; h; 1] 3) ;;
          s1 <- lift_result (getitem [1; v; h; 1] 1) ;;
          s2 <- lift_result (getitem [1; v; h; 1] 2) ;;
          ret [s0; s3; s1; s2]
        else ret [1; v; h; 1]) k w =
    k (translated_strides (data_format b) v h) w.
Proof.
  unfold translated_strides.
  destruct (String.eqb (data_format b) "NCHW"); reflexivity.
Qed.

(** The data type is not floating point: the filter is the [TypeError]
    instance, and the convolution call, made with it, raises. *)
Lemma convolution_not_floating :
  is_floating (data_type b) = false ->
  convolution num_out fh fw v h act (mkWorld b (mkTF sc dv cs)) =
    (Raise not_a_tensor,
     mkWorld (conv_named b)
       (mkTF sc dv
          (cs ++ [VariableScope (conv_scope b);
                  conv_node v h b (ExcInstance not_floating_point)]))).
Proof.
  intros Hfloat. unfold convolution. exec.
  rewrite with_variable_scope_run.
  exec. step_variable_not_floating. rewrite reordered_or_not. exec.
  unfold TF.nn_conv2d.
  erewrite bind_lift_tf; [| proj; apply op_run].
  cbn [forallb is_tensor andb]. rewrite andb_false_r. finish_run.
Qed.

Hypothesis floating : is_floating (data_type b) = true.

(** The filter cannot be created: no convolution call is made. *)
Lemma convolution_no_filter :
  (num_top_channels b + num_out) * (fh * fw) = 0 ->
  convolution num_out fh fw v h act (mkWorld b (mkTF sc dv cs)) =
    (Raise ZeroDivisionError,
     mkWorld (conv_named b)
       (mkTF sc dv (cs ++ [VariableScope (conv_scope b); Device "/cpu:0"]))).
Proof.
  intros Hzero. unfold convolution. exec.
  rewrite with_variable_scope_run.
  exec. step_variable_zero. finish_run.
Qed.

Hypothesis filter_fans : (num_top_channels b + num_out) * (fh * fw) <> 0.

(** The top layer is no tensor: the convolution call raises. *)
Lemma convolution_top_not_tensor :
  is_tensor (top_layer b) = false ->
  convolution num_out fh fw v h act (mkWorld b (mkTF sc dv cs)) =
    (Raise not_a_tensor,
     mkWorld (conv_named b)
       (mkTF sc dv
          (cs ++ [VariableScope (conv_scope b)]
              ++ creation_calls [fh; fw; num_top_channels b; num_out]
                   (data_type b) (conv_filter num_out fh fw b sc)
              ++ [conv_node v h b (conv_filter num_out fh fw b sc)]))).
Proof.
  intros Htop. unfold convolution. exec. rewrite with_variable_scope_run.
  exec. step_variable. rewrite reordered_or_not. exec. step_op.
  finish_run.
Qed.

(** The biases cannot be created. *)
Lemma convolution_no_biases :
  is_tensor (top_layer b) = true ->
  num_out + num_out = 0 ->
  convolution num_out fh fw v h act (mkWorld b (mkTF sc dv cs)) =
    (Raise ZeroDivisionError,
     mkWorld (conv_named b)
       (mkTF sc dv
          (cs ++ [VariableScope (conv_scope b)]
              ++ creation_calls [fh; fw; num_top_channels b; num_out]
                   (data_type b) (conv_filter num_out fh fw b sc)
              ++ [conv_node v h b (conv_filter num_out fh fw b sc);
                  Device "/cpu:0"]))).
Proof.
  intros Htop Hzero. unfold convolution. exec.
  rewrite with_variable_scope_run.
  exec. step_variable. rewrite reordered_or_not. exec. step_op.
  step_variable_zero. finish_run.
Qed.

(** Every variable is created and every call goes through: what is left
    is the lookup of the activation. *)
Lemma convolution_run :
  is_tensor (top_layer b) = true ->
  num_out + num_out <> 0 ->
  convolution num_out fh fw v h act (mkWorld b (mkTF sc dv cs)) =
    match dict_getitem
            (activation_table (conv_pre_activation num_out fh fw v h b sc))
            (or_default act "linear") with
    | Ok out =>
        (Ok (out, num_out),
         mkWorld (conv_done num_out b out)
           (mkTF sc dv (cs ++ conv_calls num_out fh fw v h b sc)))
    | Raise e =>
        (Raise e,
         mkWorld (conv_named b)
           (mkTF sc dv (cs ++ conv_calls num_out fh fw v h b sc)))
    end.
Proof.
  intros Htop Hbias. unfold convolution. exec.
  rewrite with_variable_scope_run.
  exec. step_variable. rewrite reordered_or_not. exec. step_op.
  step_variable. step_op.
  erewrite bind_lift_tf; [| proj; apply _activation_run; reflexivity].
  change (BiasAdd _ _ _) with (conv_pre_activation num_out fh fw v h b sc).
  destruct (dict_getitem _ _) as [out | e]; exec; unfold return_top; exec;
    unfold conv_done, conv_named, conv_calls; finish_run.
Qed.

End ConvolutionRun.

Lemma new_calls_of {X} (c : M World X) b sc dv cs r b' sc' dv' new :
  c (mkWorld b (mkTF sc dv cs)) = (r, mkWorld b' (mkTF sc' dv' (cs ++ new))) ->
  new_calls c (mkWorld b (mkTF sc dv cs)) = new.
Proof.
  intros H. unfold new_calls. rewrite H. cbn [snd tf calls].
  apply drop_calls_app.
Qed.

(** The framework calls of one convolution, on each of its ways through
    the method: either the filter could not be created and the method
    stopped there, or exactly one of the calls is the convolution call, on
    the top layer and with the strides in the order of the data format. *)
Lemma convolution_new_calls num_out fh fw v h act b t :
  let calls_made :=
    new_calls (convolution num_out fh fw v h act) (mkWorld b t) in
  (is_floating (data_type b) = true
   /\ (num_top_channels b + num_out) * (fh * fw) = 0
   /\ calls_made =
        [VariableScope ("conv" +:+ pretty (layer_count b "conv"));
         Device "/cpu:0"])
  \/ exists filter before after,
       calls_made = before ++ conv_node v h b filter :: after
       /\ existsb is_conv2d (before ++ after) = false.
Proof.
  destruct t as [sc dv cs]. intros calls_made. subst calls_made.
  destruct (is_floating (data_type b)) eqn:Hfloat.
  - destruct (Z.eq_dec ((num_top_channels b + num_out) * (fh * fw)) 0)
      as [Hzero | Hsum].
    + left. repeat split; [assumption |].
      erewrite new_calls_of by (apply convolution_no_filter; assumption).
      reflexivity.
    + right. exists (conv_filter num_out fh fw b sc).
      destruct (is_tensor (top_layer b)) eqn:Htop.
      * destruct (Z.eq_dec (num_out + num_out) 0) as [Hzero | Hbias].
        -- erewrite new_calls_of
             by (eapply convolution_no_biases; eassumption).
           unfold creation_calls. cbn [app].
           eexists [_; _; _; _; _], _. repeat split.
        -- pose proof (convolution_run num_out fh fw v h act b sc dv cs
                         Hfloat Hsum Htop Hbias) as Hrun.
           destruct (dict_getitem _ _);
             (erewrite new_calls_of by exact Hrun);
             unfold conv_calls, creation_calls; cbn [app];
             eexists [_; _; _; _; _], _; repeat split.
      * erewrite new_calls_of
          by (eapply convolution_top_not_tensor; eassumption).
        unfold creation_calls. cbn [app].
        eexists [_; _; _; _; _], _. repeat split.
  - right.
    erewrite new_calls_of by (eapply convolution_not_floating; eassumption).
    eexists _, [_], _. repeat split.
Qed.

Lemma not_among_others input filter strides padding fmt (l : list pyobj) :
  existsb is_conv2d l = false ->
  ~ In (Conv2D input filter strides padding fmt) l.
Proof.
  intros Hnone Hin.
  assert (existsb is_conv2d l = true) as Hsome
    by (apply existsb_exists; eexists; split; [exact Hin | reflexivity]).
  congruence.
Qed.

(** C4. Every call of the framework's [conv2d] that [convolution] makes is
    on the top layer, with the builder's padding and data format, and with
    the strides [[1, 1, v, h]] when the data format is ['NCHW'] and
    [[1, v, h, 1]] for any other one. The call is made unless the creation
    of the filter, which comes first, raises: that is, whenever the data
    type is not floating point or the filter's fan-in and fan-out do not
    sum to zero. *)
Theorem convolution_strides (num_out fh fw v h : Z) (act : option string)
    (b : CNNBuilder) (t : TFState) :
  let calls_made :=
    new_calls (convolution num_out fh fw v h act) (mkWorld b t) in
  let expected :=
    if String.eqb (data_format b) "NCHW" then [1; 1; v; h] else [1; v; h; 1] in
  (forall input filter strides padding fmt,
     In (Conv2D input filter strides padding fmt) calls_made ->
     strides = expected /\ input = top_layer b
     /\ padding = padding_mode b /\ fmt = data_format b)
  /\ ((is_floating (data_type b) = true ->
       (num_top_channels b + num_out) * (fh * fw) <> 0) ->
      exists filter,
        In (Conv2D (top_layer b) filter expected (padding_mode b)
              (data_format b)) calls_made).
Proof.
  intros calls_made expected.
  destruct (convolution_new_calls num_out fh fw v h act b t)
    as [(Hfloat & Hzero & Hcalls)
       | (filter & before & after & Hcalls & Hothers)];
    fold calls_made in Hcalls; rewrite Hcalls.
  - split.
    + intros input filter strides padding fmt [Hin | [Hin | []]];
        discriminate Hin.
    + intros Hmade. now destruct (Hmade Hfloat).
  - split.
    + intros input filter' strides padding fmt Hin.
      apply in_app_or in Hin. cbn [In] in Hin.
      destruct Hin as [Hin | [Heq | Hin]].
      * exfalso. eapply not_among_others; [exact Hothers |].
        apply in_or_app. left. exact Hin.
      * unfold conv_node in Heq. injection Heq as <- <- <- <- <-.
        repeat split.
      * exfalso. eapply not_among_others; [exact Hothers |].
        apply in_or_app. right. exact Hin.
    + intros _. exists filter. apply in_or_app. right. left. reflexivity.
Qed.

Lemma convolution_strides_witness :
  exists filter,
    In (Conv2D (Placeholder "images" [8; 3; 4; 4]) filter [1; 1; 2; 2] "SAME"
          "NCHW")
       (new_calls (convolution 64 3 3 2 2 (Some "relu"))
          (mkWorld
             (__init__defaults (Placeholder "images" [8; 3; 4; 4]) 3 false)
             TF0)).
Proof.
  destruct (convolution_strides 64 3 3 2 2 (Some "relu")
              (__init__defaults (Placeholder "images" [8; 3; 4; 4]) 3 false)
              TF0) as [_ Hmade].
  apply Hmade. intros _. vm_compute. discriminate.
Defined.

(** *** The fully connected layer *)

Lemma fully_connected_run num_out act b sc dv cs :
  is_floating (data_type b) = true ->
  num_top_channels b + num_out <> 0 ->
  num_out + num_out <> 0 ->
  is_tensor (top_layer b) = true ->
  fully_connected num_out act (mkWorld b (mkTF sc dv cs)) =
    match dict_getitem (activation_table (fc_pre_activation num_out b sc))
            (or_default act "linear") with
    | Ok out =>
        (Ok (out, num_out),
         mkWorld (fc_done num_out b out)
           (mkTF sc dv (cs ++ fc_calls num_out b sc)))
    | Raise e =>
        (Raise e,
         mkWorld (fc_named b) (mkTF sc dv (cs ++ fc_calls num_out b sc)))
    end.
Proof.
  intros Hfloat Hweights Hbias Htop. unfold fully_connected. exec.
  rewrite with_variable_scope_run.
  exec. step_variable. step_variable. step_op. step_op.
  erewrite bind_lift_tf; [| proj; apply _activation_run; reflexivity].
  change (Add _ _) with (fc_pre_activation num_out b sc).
  destruct (dict_getitem _ _) as [out | e]; exec; unfold return_top; exec;
    unfold fc_done, fc_named, fc_calls; finish_run.
Qed.

(** *** Methods that return *)

Lemma activation_known x method :
  In (or_default method "linear") activation_methods ->
  exists out,
    dict_getitem (activation_table x) (or_default method "linear") = Ok out.
Proof.
  intros Hin. apply dict_getitem_ok.
  cbn in Hin |- *. exact Hin.
Qed.

(** ** What a method returns *)

Lemma post_bind {X} Q (c : M World X) (k : X -> M World (pyobj * Z)) :
  (forall x, post Q (k x)) -> post Q (bind c k).
Proof.
  intros Hk w r w'. unfold bind.
  destruct (c w) as [[x | e] w1]; [apply Hk | discriminate].
Qed.

Lemma post_scope Q name (body : M World (pyobj * Z)) :
  post Q body -> post Q (with_variable_scope name body).
Proof.
  intros Hbody [b [sc dv cs]] r w'. rewrite with_variable_scope_run.
  destruct (body _) as [r1 w1] eqn:Hrun. intros [= -> <-].
  exact (Hbody _ _ _ Hrun).
Qed.

Lemma post_return_top (Q : pyobj * Z -> CNNBuilder -> Prop) :
  (forall b, Q (top_layer b, num_top_channels b) b) -> post Q return_top.
Proof. intros HQ w r w' [= <- <-]. apply HQ. Qed.

Lemma post_count n :
  post (is_cursor_of n) (set_num_top_channels n ;; return_top).
Proof. intros w r w' [= <- <-]. split; reflexivity. Qed.

Ltac to_the_return :=
  repeat first
    [ apply post_return_top; intros; reflexivity
    | apply post_count
    | apply post_scope
    | apply post_bind; intros ? ].

Lemma call_returns_cursor (c : LayerCall) : post is_cursor (call c).
Proof.
  destruct c; cbn [call];
    unfold add_layer, convolution, dropout, fully_connected, max_pooling,
      normalization, reshape;
    to_the_return.
Qed.

Lemma getitem_last_ok {A} (l : list A) :
  l <> [] -> exists x, getitem l (-1) = Ok x.
Proof.
  intros Hne.
  destruct (shape_cases l) as [-> | [[x ->] | (l' & y & x & ->)]];
    [congruence | now exists x |].
  exists x. apply getitem_from_end.
Qed.

Lemma call_returns (c : LayerCall) (w : World) :
  can_return c (self w) -> is_ok (fst (call c w)) = true.
Proof.
  destruct w as [b [sc dv cs]]; destruct c; cbn [call can_return self].
  - reflexivity.
  - intros (Hfloat & Htop & Hsum & Hbias & Hact).
    rewrite convolution_run by assumption.
    destruct (activation_known
                (conv_pre_activation num_out_channels filter_height
                   filter_width vertical_stride horizontal_stride b sc)
                activation_method Hact) as [out ->].
    reflexivity.
  - intros Htop. run_method. now rewrite Htop.
  - intros (Hfloat & Htop & Hsum & Hbias & Hact).
    rewrite fully_connected_run by assumption.
    destruct (activation_known (fc_pre_activation num_out_channels b sc)
                activation_method Hact) as [out ->].
    reflexivity.
  - intros Htop. run_method. now rewrite Htop.
  - intros Htop. run_method. now rewrite Htop.
  - intros [Htop Hne]. destruct (getitem_last_ok shape Hne) as [x Hx].
    run_method. now rewrite Htop, Hx.
Qed.

(** C9. Whenever one of the layer-adding methods returns, the pair it
    returns is the builder's [top_layer] and [num_top_channels] as they are
    right after the call; and the methods do return, under the conditions
    of [can_return]. *)
Theorem returned_cursor_is_stored_cursor (c : LayerCall) (w : World) :
  (forall layer n w',
     call c w = (Ok (layer, n), w') ->
     layer = top_layer (self w') /\ n = num_top_channels (self w'))
  /\ (can_return c (self w) ->
      exists layer n w', call c w = (Ok (layer, n), w')).
Proof.
  split.
  - intros layer n w' Hrun.
    pose proof (call_returns_cursor c w (layer, n) w' Hrun) as Hcursor.
    unfold is_cursor in Hcursor. now injection Hcursor as -> ->.
  - intros Hcan. pose proof (call_returns c w Hcan) as Hok.
    destruct (call c w) as [[[layer n] | e] w']; [eauto | discriminate].
Qed.

Lemma returned_cursor_is_stored_cursor_witness :
  exists layer n w',
    call (Convolution 64 3 3 1 1 (Some "relu"))
      (mkWorld (__init__defaults (Placeholder "images" [8; 3; 4; 4]) 3 false)
         TF0) = (Ok (layer, n), w')
    /\ layer = top_layer (self w') /\ n = num_top_channels (self w').
Proof.
  destruct (returned_cursor_is_stored_cursor
              (Convolution 64 3 3 1 1 (Some "relu"))
              (mkWorld
                 (__init__defaults (Placeholder "images" [8; 3; 4; 4]) 3 false)
                 TF0)) as [Hcursor Hreturns].
  destruct Hreturns as (layer & n & w' & Hrun).
  - cbn. intuition discriminate.
  - exists layer, n, w'. split; [exact Hrun |]. exact (Hcursor _ _ _ Hrun).
Defined.

(** ** Layer names *)

Lemma count_calls_app prefix (l1 l2 : list string) :
  count_calls prefix (l1 ++ l2) = count_calls prefix l1 + count_calls prefix l2.
Proof. induction l1 as [|p l1 IH]; cbn [app count_calls]; lia. Qed.

Lemma count_calls_nonneg prefix (l : list string) : 0 <= count_calls prefix l.
Proof.
  induction l as [|p l IH]; cbn [count_calls]; [lia |].
  destruct (String.eqb p prefix); lia.
Qed.

Lemma count_calls_grows prefix (l : list string) (i j : nat) :
  (i < j)%nat ->
  l !! i = Some prefix ->
  count_calls prefix (take i l) < count_calls prefix (take j l).
Proof.
  intros Hlt Hi.
  replace j with (i + (1 + (j - i - 1)))%nat by lia.
  rewrite <- take_take_drop, count_calls_app, (drop_S _ _ _ Hi).
  cbn [take firstn count_calls Nat.add]. rewrite String.eqb_refl.
  pose proof (count_calls_nonneg prefix (take (j - i - 1) (drop (S i) l))).
  lia.
Qed.

Lemma layer_count_set prefix n w q :
  layer_count (self (snd (set_layer_count prefix n w))) q =
    if String.eqb prefix q then n else layer_count (self w) q.
Proof.
  unfold layer_count, set_layer_count.
  cbn [snd self layer_counts]. rewrite lookup_insert.
  destruct (String.eqb_spec prefix q); case_decide; try congruence;
    reflexivity.
Qed.

Lemma layer_count_init input n train pad fmt dt prefix :
  layer_count (__init__ input n train pad fmt dt) prefix = 0.
Proof.
  unfold layer_count, __init__. cbn [layer_counts]. now rewrite lookup_empty.
Qed.

Lemma get_names_run (prefixes : list string) :
  forall w,
    exists names w',
      get_names prefixes w = (Ok names, w')
      /\ (forall p,
            layer_count (self w') p =
              layer_count (self w) p + count_calls p prefixes)
      /\ (forall i p,
            prefixes !! i = Some p ->
            names !! i =
              Some (p +:+ pretty (layer_count (self w) p
                                  + count_calls p (take i prefixes)))).
Proof.
  induction prefixes as [|p0 rest IH]; intros w.
  - exists [], w. repeat split.
    + intros p. cbn [count_calls]. lia.
    + intros i p Hi. now rewrite lookup_nil in Hi.
  - cbn [get_names]. rewrite bind_get_name.
    destruct (IH (snd (set_layer_count p0 (layer_count (self w) p0 + 1) w)))
      as (names & w' & Hrun & Hcount & Hnames).
    exists (next_name p0 w :: names), w'. repeat split.
    + unfold bind. now rewrite Hrun.
    + intros p. rewrite Hcount, layer_count_set. cbn [count_calls].
      destruct (String.eqb_spec p0 p); [subst |]; lia.
    + intros [|i] p Hi.
      * injection Hi as ->. cbn [take firstn count_calls].
        unfold next_name. now rewrite Z.add_0_r.
      * rewrite lookup_cons in Hi |- *.
        rewrite (Hnames i p Hi), layer_count_set.
        cbn [take firstn count_calls].
        do 3 f_equal.
        destruct (String.eqb_spec p0 p); [subst |]; lia.
Qed.

(** *** Only [_get_name] touches the counters *)

Lemma keeps_bind {X Y} (c : M World X) (k : X -> M World Y) :
  keeps_counts c -> (forall x, keeps_counts (k x)) -> keeps_counts (bind c k).
Proof.
  intros Hc Hk w. unfold bind. specialize (Hc w).
  destruct (c w) as [[x | e] w1]; cbn [snd] in *; [| exact Hc].
  now rewrite Hk.
Qed.

Lemma keeps_lift_tf {X} (c : M TFState X) : keeps_counts (lift_tf c).
Proof. intros w. unfold lift_tf. now destruct (c (tf w)). Qed.

Lemma keeps_scope {X} name (body : M World X) :
  keeps_counts body -> keeps_counts (with_variable_scope name body).
Proof.
  intros Hbody [b [sc dv cs]]. rewrite with_variable_scope_run.
  specialize (Hbody (mkWorld b (mkTF (name :: sc) dv
                                  (cs ++ [VariableScope name])))).
  now destruct (body _).
Qed.

Lemma keeps_if {X} (test : bool) (c1 c2 : M World X) :
  keeps_counts c1 -> keeps_counts c2 ->
  keeps_counts (if test then c1 else c2).
Proof. now destruct test. Qed.

Ltac keeps :=
  repeat first
    [ apply keeps_lift_tf
    | apply keeps_scope
    | apply keeps_if
    | apply keeps_bind; [| intros ?]
    | intros ?; reflexivity ].

Lemma named_then_kept {X} prefix (k : string -> M World X) w q :
  (forall name, keeps_counts (k name)) ->
  layer_count (self (snd (bind (_get_name prefix) k w))) q =
    layer_count (self w) q + count_calls q [prefix].
Proof.
  intros Hk. rewrite bind_get_name. unfold layer_count at 1.
  rewrite Hk. fold (layer_count (self (snd (set_layer_count prefix
    (layer_count (self w) prefix + 1) w))) q).
  rewrite layer_count_set. cbn [count_calls].
  destruct (String.eqb_spec prefix q); [subst |]; lia.
Qed.

Lemma call_counts (c : LayerCall) (w : World) (q : string) :
  layer_count (self (snd (call c w))) q =
    layer_count (self w) q + count_calls q (requested_prefix c).
Proof.
  destruct c; cbn [call requested_prefix];
    unfold convolution, dropout, fully_connected, max_pooling, normalization,
      reshape, return_top;
    try (apply named_then_kept; intros name; keeps).
  cbn [count_calls]. rewrite Z.add_0_r. reflexivity.
Qed.

(** C8. On a builder as [__init__] makes it, after [_get_name] was called
    for each of [prefixes] in turn, [layer_counts[p]] is, for every [p], the
    number of those calls that were calls with [p]; the call number [i]
    returned its prefix followed by the decimal count of the earlier calls
    with the same prefix; and two of the calls with the same prefix
    returned different names. A layer-adding method moves the counters as
    the one [_get_name] call it makes does ([add_layer] makes none). *)
Theorem layer_names_are_counted (input_layer : pyobj) (num_input_channels : Z)
    (train : bool) (padding fmt : string) (dt : DType) (t : TFState)
    (prefixes : list string) :
  (exists names w',
     get_names prefixes
       (mkWorld (__init__ input_layer num_input_channels train padding fmt dt)
          t) = (Ok names, w')
     /\ (forall p, layer_count (self w') p = count_calls p prefixes)
     /\ (forall i p,
           prefixes !! i = Some p ->
           names !! i =
             Some (p +:+ pretty (count_calls p (take i prefixes))))
     /\ (forall i j p,
           i <> j ->
           prefixes !! i = Some p ->
           prefixes !! j = Some p ->
           names !! i <> names !! j))
  /\ (forall (c : LayerCall) (w : World) (p : string),
        layer_count (self (snd (call c w))) p =
          layer_count (self w) p + count_calls p (requested_prefix c)).
Proof.
  split; [| apply call_counts].
  destruct (get_names_run prefixes
              (mkWorld
                 (__init__ input_layer num_input_channels train padding fmt dt)
                 t)) as (names & w' & Hrun & Hcount & Hnames).
  cbn [self] in Hcount, Hnames.
  assert (forall i p,
            prefixes !! i = Some p ->
            names !! i = Some (p +:+ pretty (count_calls p (take i prefixes))))
    as Hnames'.
  { intros i p Hi. rewrite (Hnames i p Hi), layer_count_init. reflexivity. }
  exists names, w'. repeat split.
  - exact Hrun.
  - intros p. now rewrite Hcount, layer_count_init.
  - exact Hnames'.
  - intros i j p Hne Hi Hj.
    rewrite (Hnames' i p Hi), (Hnames' j p Hj). intros [= Heq].
    apply (inj (String.app p)) in Heq. apply (inj pretty) in Heq.
    destruct (Nat.lt_total i j) as [Hlt | [-> | Hlt]]; [| congruence |].
    + pose proof (count_calls_grows p prefixes i j Hlt Hi). lia.
    + pose proof (count_calls_grows p prefixes j i Hlt Hj). lia.
Qed.

Lemma layer_names_are_counted_witness :
  exists w',
    get_names ["conv"; "fc"; "conv"]
      (mkWorld (__init__ (Placeholder "images" [8; 3; 4; 4]) 3 false "SAME"
                  "NCHW" float32) TF0) = (Ok ["conv0"; "fc0"; "conv1"], w')
    /\ layer_count (self w') "conv" = 2.
Proof.
  destruct (layer_names_are_counted (Placeholder "images" [8; 3; 4; 4]) 3
              false "SAME" "NCHW" float32 TF0 ["conv"; "fc"; "conv"])
    as [(names & w' & Hrun & Hcount & _) _].
  exists w'. split; [| exact (Hcount "conv")].
  rewrite Hrun. vm_compute in Hrun. injection Hrun as <- _. reflexivity.
Defined.



(** * Further properties of the builder and of the model *)

(** ** Their vocabulary *)

(** The framework state [t'] comes after [t]: the same scopes and devices
    are open, and calls were only added. *)
Definition tf_extends (t t' : TFState) : Prop :=
  scopes t' = scopes t
  /\ devices t' = devices t
  /\ exists new, calls t' = calls t ++ new.

Definition tf_balanced {X} (c : M TFState X) : Prop :=
  forall t, tf_extends t (snd (c t)).

Definition balanced {X} (c : M World X) : Prop :=
  forall w, tf_extends (tf w) (tf (snd (c w))).

(** The computation leaves the part [f] of the builder as it found it,
    however it ends. *)
Definition keeps_field {X F} (f : CNNBuilder -> F) (c : M World X) : Prop :=
  forall w, f (self (snd (c w))) = f (self w).

(** What [__init__] is told about the network and no method assigns. *)
Definition configuration (b : CNNBuilder) : bool * string * string * DType :=
  (is_train_phase b, padding_mode b, data_format b, data_type b).

Definition cursor (b : CNNBuilder) : pyobj * Z :=
  (top_layer b, num_top_channels b).

(** A raise leaves the cursor where it was. *)
Definition cursor_kept_on_raise {X} (c : M World X) : Prop :=
  forall w e w', c w = (Raise e, w') -> cursor (self w') = cursor (self w).

Definition is_variable (o : pyobj) : bool :=
  match o with
  | VariableV2 _ _ _ _ _ _ => true
  | _ => false
  end.

(** The prefixes the layer-adding methods ask names for. *)
Definition builder_prefixes : list string :=
  ["conv"; "dropout"; "fc"; "mpool"; "norm"; "reshape"].

(** ** The framework state across a call *)

Lemma tf_extends_refl t : tf_extends t t.
Proof. repeat split. exists []. now rewrite app_nil_r. Qed.

Lemma tf_extends_trans t1 t2 t3 :
  tf_extends t1 t2 -> tf_extends t2 t3 -> tf_extends t1 t3.
Proof.
  intros (Hs1 & Hd1 & new1 & Hc1) (Hs2 & Hd2 & new2 & Hc2).
  repeat split; [congruence | congruence |].
  exists (new1 ++ new2). now rewrite Hc2, Hc1, app_assoc.
Qed.

Lemma tf_extends_record c t : tf_extends t (record_call c t).
Proof. repeat split. now exists [c]. Qed.

Lemma tf_balanced_bind {X Y} (c : M TFState X) (k : X -> M TFState Y) :
  tf_balanced c -> (forall x, tf_balanced (k x)) -> tf_balanced (bind c k).
Proof.
  intros Hc Hk t. unfold bind. specialize (Hc t).
  destruct (c t) as [[x | e] t1]; cbn [snd] in *; [| exact Hc].
  eapply tf_extends_trans; [exact Hc | apply Hk].
Qed.

Lemma tf_balanced_op args node : tf_balanced (TF.op args node).
Proof. intros t. apply tf_extends_record. Qed.

Lemma tf_balanced_device {X} name (body : M TFState X) :
  tf_balanced body ->
  tf_balanced (with_block (TF.device_enter name) TF.device_exit body).
Proof.
  intros Hbody [sc dv cs]. unfold with_block, TF.device_enter, TF.device_exit.
  cbn [scopes devices calls].
  specialize (Hbody (mkTF sc (name :: dv) (cs ++ [Device name]))).
  destruct (body _) as [r [sc' dv' cs']].
  destruct Hbody as (Hs & Hd & new & Hc). cbn [snd scopes devices calls] in *.
  subst. repeat split. exists (Device name :: new).
  now rewrite <- app_assoc.
Qed.

Ltac tf_balance :=
  cbv zeta;
  repeat first
    [ apply tf_balanced_op
    | apply tf_balanced_device
    | apply tf_balanced_bind; [| intros ?]
    | match goal with
      | |- tf_balanced (let '(_, _) := ?e in _) => destruct e
      end
    | intros ?; apply tf_extends_record
    | intros ?; apply tf_extends_refl ].

Lemma _initializer_balanced shape dt method :
  tf_balanced (_initializer shape dt method).
Proof. unfold _initializer. tf_balance. Qed.

Lemma _activation_balanced x method : tf_balanced (_activation x method).
Proof.
  unfold _activation, TF.nn_relu, TF.nn_sigmoid, TF.nn_softmax, TF.nn_tanh.
  tf_balance.
Qed.

Lemma cnn_variable_balanced name shape method dt :
  tf_balanced (cnn_variable name shape method dt).
Proof.
  unfold cnn_variable. destruct (negb (is_floating dt)).
  - intros t. apply tf_extends_refl.
  - apply tf_balanced_device.
    apply tf_balanced_bind; [apply _initializer_balanced | intros init].
    tf_balance.
Qed.

Lemma balanced_bind {X Y} (c : M World X) (k : X -> M World Y) :
  balanced c -> (forall x, balanced (k x)) -> balanced (bind c k).
Proof.
  intros Hc Hk w. unfold bind. specialize (Hc w).
  destruct (c w) as [[x | e] w1]; cbn [snd] in *; [| exact Hc].
  eapply tf_extends_trans; [exact Hc | apply Hk].
Qed.

Lemma balanced_lift_tf {X} (c : M TFState X) :
  tf_balanced c -> balanced (lift_tf c).
Proof.
  intros Hc w. unfold lift_tf. specialize (Hc (tf w)).
  now destruct (c (tf w)).
Qed.

Lemma balanced_scope {X} name (body : M World X) :
  balanced body -> balanced (with_variable_scope name body).
Proof.
  intros Hbody [b [sc dv cs]]. rewrite with_variable_scope_run.
  specialize (Hbody (mkWorld b (mkTF (name :: sc) dv
                                  (cs ++ [VariableScope name])))).
  destruct (body _) as [r [b' [sc' dv' cs']]].
  destruct Hbody as (Hs & Hd & new & Hc).
  cbn [snd tf self scopes devices calls] in *.
  subst. repeat split. exists (VariableScope name :: new).
  now rewrite <- app_assoc.
Qed.

Lemma balanced_if {X} (test : bool) (c1 c2 : M World X) :
  balanced c1 -> balanced c2 -> balanced (if test then c1 else c2).
Proof. now destruct test. Qed.

Ltac balance :=
  repeat first
    [ apply balanced_scope
    | apply balanced_if
    | apply balanced_lift_tf;
      first [ apply cnn_variable_balanced
            | apply _activation_balanced
            | apply tf_balanced_op ]
    | apply balanced_bind; [| intros ?]
    | intros ?; apply tf_extends_refl ].

Lemma call_balanced (c : LayerCall) : balanced (call c).
Proof.
  destruct c; cbn [call];
    unfold add_layer, convolution, dropout, fully_connected, max_pooling,
      normalization, reshape, _get_name, return_top,
      cnn_variable_default_init, TF.nn_conv2d, TF.nn_bias_add, TF.matmul,
      TF.add, TF.nn_dropout, TF.nn_max_pool,
      TF.nn_local_response_normalization, TF.reshape;
    balance.
Qed.

(** X1. Whatever a layer-adding method does, and whether it returns or
    raises, it leaves the framework with the variable scopes and the devices
    that were open before the call, and with every earlier call still on
    record, in order: calls are only added. *)
Theorem layer_call_leaves_framework_balanced (c : LayerCall) (w : World) :
  scopes (tf (snd (call c w))) = scopes (tf w)
  /\ devices (tf (snd (call c w))) = devices (tf w)
  /\ calls (tf (snd (call c w))) = calls (tf w) ++ new_calls (call c) w.
Proof.
  destruct (call_balanced c w) as (Hs & Hd & new & Hc).
  repeat split; [exact Hs | exact Hd |].
  unfold new_calls. rewrite Hc at 1. now rewrite Hc, drop_calls_app.
Qed.

(** ** The builder across a call *)

Lemma keeps_field_bind {X Y F} (f : CNNBuilder -> F) (c : M World X)
    (k : X -> M World Y) :
  keeps_field f c -> (forall x, keeps_field f (k x)) ->
  keeps_field f (bind c k).
Proof.
  intros Hc Hk w. unfold bind. specialize (Hc w).
  destruct (c w) as [[x | e] w1]; cbn [snd] in *; [| exact Hc].
  now rewrite Hk.
Qed.

Lemma keeps_field_lift_tf {X F} (f : CNNBuilder -> F) (c : M TFState X) :
  keeps_field f (lift_tf c).
Proof. intros w. unfold lift_tf. now destruct (c (tf w)). Qed.

Lemma keeps_field_scope {X F} (f : CNNBuilder -> F) name (body : M World X) :
  keeps_field f body -> keeps_field f (with_variable_scope name body).
Proof.
  intros Hbody [b [sc dv cs]]. rewrite with_variable_scope_run.
  specialize (Hbody (mkWorld b (mkTF (name :: sc) dv
                                  (cs ++ [VariableScope name])))).
  now destruct (body _).
Qed.

Lemma keeps_field_if {X F} (f : CNNBuilder -> F) (test : bool)
    (c1 c2 : M World X) :
  keeps_field f c1 -> keeps_field f c2 ->
  keeps_field f (if test then c1 else c2).
Proof. now destruct test. Qed.

Ltac keeps_the_field :=
  repeat first
    [ apply keeps_field_lift_tf
    | apply keeps_field_scope
    | apply keeps_field_if
    | apply keeps_field_bind; [| intros ?]
    | intros ?; reflexivity ].

(** X2. No layer-adding method changes what the builder was configured
    with: the training flag, the padding mode, the data format and the data
    type are after the call, returned or raised, what they were before. *)
Theorem layer_call_keeps_configuration (c : LayerCall) (w : World) :
  configuration (self (snd (call c w))) = configuration (self w).
Proof.
  revert w. change (keeps_field configuration (call c)).
  destruct c; cbn [call];
    unfold add_layer, convolution, dropout, fully_connected, max_pooling,
      normalization, reshape, _get_name, return_top;
    keeps_the_field.
Qed.

(** *** A raise and the cursor *)

Lemma cursor_kept_bind {X Y} (c : M World X) (k : X -> M World Y) :
  keeps_field cursor c -> (forall x, cursor_kept_on_raise (k x)) ->
  cursor_kept_on_raise (bind c k).
Proof.
  intros Hc Hk w e w'. unfold bind. specialize (Hc w).
  destruct (c w) as [[x | e1] w1]; cbn [snd] in Hc.
  - intros Hrun. rewrite (Hk x w1 e w' Hrun). exact Hc.
  - intros [= _ <-]. exact Hc.
Qed.

Lemma cursor_kept_scope {X} name (body : M World X) :
  cursor_kept_on_raise body ->
  cursor_kept_on_raise (with_variable_scope name body).
Proof.
  intros Hbody [b [sc dv cs]] e w'. rewrite with_variable_scope_run.
  destruct (body _) as [r w1] eqn:Hrun. intros [= -> <-].
  exact (Hbody _ _ _ Hrun).
Qed.

(** The last lines of a method only assign and return. *)
Lemma cursor_kept_assigning (v : pyobj) (n : Z) :
  cursor_kept_on_raise
    (set_top_layer v ;; set_num_top_channels n ;; return_top).
Proof. intros w e w'. run_method. cbn. intros Hrun. congruence. Qed.

Lemma cursor_kept_assigning_top (v : pyobj) :
  cursor_kept_on_raise (set_top_layer v ;; return_top).
Proof. intros w e w'. run_method. cbn. intros Hrun. congruence. Qed.

Ltac to_the_assignments :=
  repeat first
    [ apply cursor_kept_assigning
    | apply cursor_kept_assigning_top
    | apply cursor_kept_scope
    | apply cursor_kept_bind; [keeps_the_field | intros ?] ].

(** X3. A layer-adding method that raises has not moved the cursor: the
    top layer and its channel count are as before the call. The one
    exception is [reshape] with an empty shape raising [IndexError] on
    [shape[-1]]: by then it has made the reshaped tensor the top layer, and
    so it leaves the new top layer with the old channel count. *)
Theorem cursor_kept_unless_reshape_to_empty (c : LayerCall) (w : World) :
  (forall e w',
     call c w = (Raise e, w') ->
     c <> ReshapeCall [] \/ e <> IndexError ->
     cursor (self w') = cursor (self w))
  /\ (forall w',
        reshape [] w = (Raise IndexError, w') ->
        top_layer (self w') =
          Reshape (top_layer (self w)) [] (next_name "reshape" w)
        /\ num_top_channels (self w') = num_top_channels (self w)).
Proof.
  split.
  - intros e w' Hrun Hc. revert w e w' Hrun Hc.
    destruct c; cbn [call];
      try (intros w e w' Hrun _; revert w e w' Hrun;
           change (cursor_kept_on_raise (add_layer layer num_layer_channels))
           || change (cursor_kept_on_raise
                        (convolution num_out_channels filter_height
                           filter_width vertical_stride horizontal_stride
                           activation_method))
           || change (cursor_kept_on_raise (dropout keep_prob))
           || change (cursor_kept_on_raise
                        (fully_connected num_out_channels activation_method))
           || change (cursor_kept_on_raise
                        (max_pooling pool_height pool_width vertical_stride
                           horizontal_stride))
           || change (cursor_kept_on_raise
                        (normalization depth_radius bias alpha beta));
           unfold add_layer, convolution, dropout, fully_connected,
             max_pooling, normalization, _get_name;
           solve [to_the_assignments]).
    destruct shape as [|d shape].
    + intros [b [sc dv cs]] e w'. run_method.
      destruct (is_tensor (top_layer b)); cbn [andb].
      * cbn. intros [= <- _] [Hc | He]; congruence.
      * intros [= _ <-] _. reflexivity.
    + intros w e w' Hrun _. revert w e w' Hrun.
      change (cursor_kept_on_raise (reshape (d :: shape))).
      unfold reshape, _get_name.
      destruct (getitem_last_ok (d :: shape)) as [x Hx]; [congruence |].
      rewrite Hx.
      apply cursor_kept_bind; [keeps_the_field | intros name].
      apply cursor_kept_bind; [keeps_the_field | intros top].
      apply cursor_kept_bind; [keeps_the_field | intros reshaped].
      intros w e w'. run_method. cbn. intros Hrun. congruence.
  - destruct w as [b [sc dv cs]]. intros w'. run_method.
    destruct (is_tensor (top_layer b)); cbn [andb].
    + cbn. intros [= <-]. split; reflexivity.
    + intros Hrun. discriminate Hrun.
Qed.

Lemma cursor_kept_unless_reshape_to_empty_witness :
  exists w',
    reshape []
      (mkWorld (__init__defaults (Placeholder "x" [1]) 1 false) TF0) =
      (Raise IndexError, w')
    /\ top_layer (self w') = Reshape (Placeholder "x" [1]) [] "reshape0"
    /\ num_top_channels (self w') = 1.
Proof.
  eexists. split; [vm_compute; reflexivity |].
  apply (cursor_kept_unless_reshape_to_empty (ReshapeCall [])
           (mkWorld (__init__defaults (Placeholder "x" [1]) 1 false) TF0)).
  vm_compute. reflexivity.
Defined.

(** ** The ways through the fully connected layer *)

Section FullyConnectedStopped.

Variables (num_out : Z) (act : option string).
Variables (b : CNNBuilder) (sc dv : list string) (cs : list pyobj).

(** The data type is not floating point: weights and biases are both the
    [TypeError] instance, and the product, asked for with it, raises. *)
Lemma fully_connected_not_floating :
  is_floating (data_type b) = false ->
  fully_connected num_out act (mkWorld b (mkTF sc dv cs)) =
    (Raise not_a_tensor,
     mkWorld (fc_named b)
       (mkTF sc dv
          (cs ++ [VariableScope (fc_scope b);
                  MatMul (top_layer b) (ExcInstance not_floating_point)]))).
Proof.
  intros Hfloat. unfold fully_connected. exec.
  rewrite with_variable_scope_run.
  exec. step_variable_not_floating. step_variable_not_floating.
  unfold TF.matmul.
  erewrite bind_lift_tf; [| proj; apply op_run].
  cbn [forallb is_tensor andb]. rewrite andb_false_r. finish_run.
Qed.

Hypothesis floating : is_floating (data_type b) = true.

Lemma fully_connected_no_weights :
  num_top_channels b + num_out = 0 ->
  fully_connected num_out act (mkWorld b (mkTF sc dv cs)) =
    (Raise ZeroDivisionError,
     mkWorld (fc_named b)
       (mkTF sc dv (cs ++ [VariableScope (fc_scope b); Device "/cpu:0"]))).
Proof.
  intros Hzero. unfold fully_connected. exec.
  rewrite with_variable_scope_run.
  exec. step_variable_zero. finish_run.
Qed.

Hypothesis weights_fans : num_top_channels b + num_out <> 0.

Lemma fully_connected_no_biases :
  num_out + num_out = 0 ->
  fully_connected num_out act (mkWorld b (mkTF sc dv cs)) =
    (Raise ZeroDivisionError,
     mkWorld (fc_named b)
       (mkTF sc dv
          (cs ++ [VariableScope (fc_scope b)]
              ++ creation_calls [num_top_channels b; num_out] (data_type b)
                   (fc_weights num_out b sc)
              ++ [Device "/cpu:0"]))).
Proof.
  intros Hzero. unfold fully_connected. exec.
  rewrite with_variable_scope_run.
  exec. step_variable. step_variable_zero. finish_run.
Qed.

Lemma fully_connected_top_not_tensor :
  num_out + num_out <> 0 ->
  is_tensor (top_layer b) = false ->
  fully_connected num_out act (mkWorld b (mkTF sc dv cs)) =
    (Raise not_a_tensor,
     mkWorld (fc_named b)
       (mkTF sc dv
          (cs ++ [VariableScope (fc_scope b)]
              ++ creation_calls [num_top_channels b; num_out] (data_type b)
                   (fc_weights num_out b sc)
              ++ creation_calls [num_out] (data_type b)
                   (fc_biases num_out b sc)
              ++ [MatMul (top_layer b) (fc_weights num_out b sc)]))).
Proof.
  intros Hbias Htop. unfold fully_connected. exec.
  rewrite with_variable_scope_run.
  exec. step_variable. step_variable. step_op. finish_run.
Qed.

End FullyConnectedStopped.

(** ** When a method returns *)

Lemma activation_unknown x method :
  ~ In (or_default method "linear") activation_methods ->
  dict_getitem (activation_table x) (or_default method "linear") =
    Raise (KeyError (or_default method "linear")).
Proof. intros Hnot. now apply dict_getitem_missing. Qed.

Lemma known_or_not (key : string) (keys : list string) :
  In key keys \/ ~ In key keys.
Proof. destruct (in_dec string_dec key keys); [now left | now right]. Qed.

Lemma convolution_returns_iff num_out fh fw v h act b t :
  is_ok (fst (convolution num_out fh fw v h act (mkWorld b t))) = true <->
  can_return (Convolution num_out fh fw v h act) b.
Proof.
  destruct t as [sc dv cs]. cbn [can_return].
  destruct (is_floating (data_type b)) eqn:Hfloat.
  2: { rewrite convolution_not_floating by assumption. cbn [fst is_ok].
       split; [discriminate | intros (H & _); discriminate H]. }
  destruct (Z.eq_dec ((num_top_channels b + num_out) * (fh * fw)) 0)
    as [Hzero | Hsum].
  { rewrite convolution_no_filter by assumption. cbn [fst is_ok].
    split; [discriminate | intros (_ & _ & H & _); contradiction]. }
  destruct (is_tensor (top_layer b)) eqn:Htop.
  2: { rewrite convolution_top_not_tensor by assumption. cbn [fst is_ok].
       split; [discriminate | intros (_ & H & _); discriminate H]. }
  destruct (Z.eq_dec (num_out + num_out) 0) as [Hzero | Hbias].
  { rewrite convolution_no_biases by assumption. cbn [fst is_ok].
    split; [discriminate | intros (_ & _ & _ & H & _); contradiction]. }
  rewrite convolution_run by assumption.
  destruct (known_or_not (or_default act "linear") activation_methods)
    as [Hknown | Hunknown].
  - destruct (activation_known (conv_pre_activation num_out fh fw v h b sc)
                act Hknown) as [out ->].
    cbn [fst is_ok]. tauto.
  - rewrite activation_unknown by assumption. cbn [fst is_ok].
    split; [discriminate | intros (_ & _ & _ & _ & H); contradiction].
Qed.

Lemma fully_connected_returns_iff num_out act b t :
  is_ok (fst (fully_connected num_out act (mkWorld b t))) = true <->
  can_return (FullyConnected num_out act) b.
Proof.
  destruct t as [sc dv cs]. cbn [can_return].
  destruct (is_floating (data_type b)) eqn:Hfloat.
  2: { rewrite fully_connected_not_floating by assumption. cbn [fst is_ok].
       split; [discriminate | intros (H & _); discriminate H]. }
  destruct (Z.eq_dec (num_top_channels b + num_out) 0) as [Hzero | Hsum].
  { rewrite fully_connected_no_weights by assumption. cbn [fst is_ok].
    split; [discriminate | intros (_ & _ & H & _); contradiction]. }
  destruct (Z.eq_dec (num_out + num_out) 0) as [Hzero | Hbias].
  { rewrite fully_connected_no_biases by assumption. cbn [fst is_ok].
    split; [discriminate | intros (_ & _ & _ & H & _); contradiction]. }
  destruct (is_tensor (top_layer b)) eqn:Htop.
  2: { rewrite fully_connected_top_not_tensor by assumption.
       cbn [fst is_ok].
       split; [discriminate | intros (_ & H & _); discriminate H]. }
  rewrite fully_connected_run by assumption.
  destruct (known_or_not (or_default act "linear") activation_methods)
    as [Hknown | Hunknown].
  - destruct (activation_known (fc_pre_activation num_out b sc) act Hknown)
      as [out ->].
    cbn [fst is_ok]. tauto.
  - rewrite activation_unknown by assumption. cbn [fst is_ok].
    split; [discriminate | intros (_ & _ & _ & _ & H); contradiction].
Qed.

(** X4. A layer-adding method returns only under these conditions; where
    one of them fails, it raises. [dropout], [max_pooling] and
    [normalization] return only when the top layer is a tensor; [reshape]
    only when moreover the shape is not empty. [convolution] and
    [fully_connected] return only when the data type is floating point, the
    top layer is a tensor, neither fan sum is zero (so the number of output
    channels is not 0, and is not minus the number of input channels), and
    the activation is one of the five of the table, or left out. *)
Theorem layer_call_returns_only_when (c : LayerCall) (w : World) :
  is_ok (fst (call c w)) = true -> can_return c (self w).
Proof.
  destruct w as [b t]. cbn [self].
  destruct c; cbn [call].
  - cbn. tauto.
  - apply convolution_returns_iff.
  - destruct t as [sc dv cs]. cbn [can_return]. run_method.
    destruct (is_tensor (top_layer b)); cbn [fst is_ok]; [tauto | discriminate].
  - apply fully_connected_returns_iff.
  - destruct t as [sc dv cs]. cbn [can_return]. run_method.
    destruct (is_tensor (top_layer b)); cbn [fst is_ok]; [tauto | discriminate].
  - destruct t as [sc dv cs]. cbn [can_return]. run_method.
    destruct (is_tensor (top_layer b)); cbn [fst is_ok]; [tauto | discriminate].
  - destruct t as [sc dv cs]. cbn [can_return].
    destruct shape as [|d shape].
    + run_method. destruct (is_tensor (top_layer b)); cbn; discriminate.
    + run_method. destruct (is_tensor (top_layer b)); cbn [andb fst is_ok].
      * intros _. split; [reflexivity | discriminate].
      * discriminate.
Qed.

Lemma layer_call_returns_only_when_witness :
  can_return (Convolution 64 3 3 1 1 (Some "relu"))
    (__init__defaults (Placeholder "images" [8; 3; 4; 4]) 3 false).
Proof.
  apply (layer_call_returns_only_when (Convolution 64 3 3 1 1 (Some "relu"))
           (mkWorld
              (__init__defaults (Placeholder "images" [8; 3; 4; 4]) 3 false)
              TF0)).
  vm_compute. reflexivity.
Defined.

(** ** Creating a variable *)

Lemma cnn_variable_empty_shape name method dt sc dv cs :
  is_floating dt = true ->
  cnn_variable name [] method dt (mkTF sc dv cs) =
    (Raise IndexError, mkTF sc dv (cs ++ [Device "/cpu:0"])).
Proof. intros Hf. unfold cnn_variable. rewrite Hf. reflexivity. Qed.

Lemma cnn_variable_unknown_method name shape method dt sc dv cs :
  is_floating dt = true ->
  shape <> [] ->
  fan_in_of shape + fan_out_of shape <> 0 ->
  ~ In (or_default method "zeros") initializer_methods ->
  cnn_variable name shape method dt (mkTF sc dv cs) =
    (Raise (KeyError (or_default method "zeros")),
     mkTF sc dv
       (cs ++ [Device "/cpu:0"; glorot_initializer shape dt;
               ZerosInitializer dt])).
Proof.
  intros Hf Hne Hsum Hnot. unfold cnn_variable, with_block, TF.device_enter.
  rewrite Hf. cbn [negb scopes devices calls].
  unfold bind at 1. rewrite _initializer_run by assumption.
  rewrite (dict_getitem_missing (initializer_table shape dt) _ Hnot).
  unfold TF.device_exit. cbn [scopes devices calls head tail].
  now rewrite <- !app_assoc.
Qed.

(** X5. What [cnn_variable] does for a floating point data type. It enters
    the device ['/cpu:0'] and stops, with the calls made by then, in one of
    three ways before it asks for the variable: [IndexError] for an empty
    shape; [ZeroDivisionError] for a shape whose fan-in and fan-out sum to
    zero; [KeyError] for an initialization method that is neither
    ['glorot_uniform'] nor ['zeros'] (nor left out), after both
    initializers were built. Otherwise it asks the framework for the
    variable of the given name and shape, in the scopes that are open, on
    ['/cpu:0'], with the Glorot or the zero initializer; and when it
    returns, that variable is what it returns. In each case the device is
    left again and the open scopes are untouched. *)
Theorem cnn_variable_outcomes (name : string) (shape : list Z)
    (method : option string) (dt : DType) (t : TFState) :
  is_floating dt = true ->
  let key := or_default method "zeros" in
  let after new := mkTF (scopes t) (devices t) (calls t ++ new) in
  let variable init :=
    VariableV2 (scopes t) (Some "/cpu:0") name shape dt init in
  let asked init :=
    snd (cnn_variable name shape method dt t) =
      after [Device "/cpu:0"; glorot_initializer shape dt;
             ZerosInitializer dt; variable init]
    /\ forall r, fst (cnn_variable name shape method dt t) = Ok r ->
                 r = variable init in
  (shape = [] ->
   cnn_variable name shape method dt t =
     (Raise IndexError, after [Device "/cpu:0"]))
  /\ (shape <> [] -> fan_in_of shape + fan_out_of shape = 0 ->
      cnn_variable name shape method dt t =
        (Raise ZeroDivisionError, after [Device "/cpu:0"]))
  /\ (shape <> [] -> fan_in_of shape + fan_out_of shape <> 0 ->
      (~ In key initializer_methods ->
       cnn_variable name shape method dt t =
         (Raise (KeyError key),
          after [Device "/cpu:0"; glorot_initializer shape dt;
                 ZerosInitializer dt]))
      /\ (key = "glorot_uniform" -> asked (glorot_initializer shape dt))
      /\ (key = "zeros" -> asked (ZerosInitializer dt))).
Proof.
  intros Hf key after variable asked. destruct t as [sc dv cs].
  subst asked after variable. cbn [scopes devices calls].
  split; [| split].
  - intros ->. now apply cnn_variable_empty_shape.
  - intros Hne Hzero. now apply cnn_variable_zero_sum.
  - intros Hne Hsum. split; [| split].
    + intros Hnot. now apply cnn_variable_unknown_method.
    + intros Hkey.
      rewrite (cnn_variable_run name shape method dt sc dv cs
                 (glorot_initializer shape dt)) by
        (try assumption; fold key; now rewrite Hkey).
      cbn [fst snd]. split; [reflexivity | now intros r [= <-]].
    + intros Hkey.
      rewrite (cnn_variable_run name shape method dt sc dv cs
                 (ZerosInitializer dt)) by
        (try assumption; fold key; now rewrite Hkey).
      cbn [fst snd]. split; [reflexivity | now intros r [= <-]].
Qed.

Lemma cnn_variable_outcomes_witness :
  cnn_variable "w" [2; 3] (Some "ones") float32 TF0 =
    (Raise (KeyError "ones"),
     mkTF [] []
       [Device "/cpu:0"; glorot_initializer [2; 3] float32;
        ZerosInitializer float32]).
Proof.
  destruct (cnn_variable_outcomes "w" [2; 3] (Some "ones") float32 TF0
              eq_refl) as (_ & _ & Hthird).
  destruct Hthird as (Hunknown & _ & _).
  - discriminate.
  - vm_compute. discriminate.
  - apply Hunknown. cbn. intros H. decompose [or] H; discriminate || assumption.
Defined.

(** ** What a layer is made of *)

Lemma glorot_bound_filter (fh fw cin cout : Z) :
  glorot_bound [fh; fw; cin; cout] =
    PyPow (PyTrueDiv 6 ((cin + cout) * (fh * fw))) (PyFloat 0.5).
Proof. unfold glorot_bound. now rewrite fans_filter. Qed.

Lemma glorot_bound_weights (cin cout : Z) :
  glorot_bound [cin; cout] = PyPow (PyTrueDiv 6 (cin + cout)) (PyFloat 0.5).
Proof. unfold glorot_bound. now rewrite fans_weights. Qed.

(** X6. A convolution that returns has built this: a variable ["filter"] of
    shape [[filter_height, filter_width, input channels, output channels]]
    in the scope [conv<count>], drawn uniformly from [[-b, b]] with
    [b = (6 / ((in + out) * height * width)) ** 0.5]; a variable ["biases"]
    of shape [[output channels]] in the same scope, filled with zeros; and
    it returns the activation's entry for
    [bias_add(conv2d(top layer, filter), biases)], with the number of output
    channels, both being the builder's cursor afterwards. *)
Theorem convolution_builds (num_out fh fw v h : Z) (act : option string)
    (b : CNNBuilder) (t : TFState) (r : pyobj * Z) (w' : World) :
  convolution num_out fh fw v h act (mkWorld b t) = (Ok r, w') ->
  let bound :=
    PyPow (PyTrueDiv 6 ((num_top_channels b + num_out) * (fh * fw)))
      (PyFloat 0.5) in
  let scope := ("conv" +:+ pretty (layer_count b "conv")) :: scopes t in
  let filter :=
    VariableV2 scope (Some "/cpu:0") "filter"
      [fh; fw; num_top_channels b; num_out] (data_type b)
      (RandomUniformInitializer (PyNeg bound) bound (data_type b)) in
  let biases :=
    VariableV2 scope (Some "/cpu:0") "biases" [num_out] (data_type b)
      (ZerosInitializer (data_type b)) in
  let pre_activation :=
    BiasAdd
      (Conv2D (top_layer b) filter
         (if String.eqb (data_format b) "NCHW" then [1; 1; v; h]
          else [1; v; h; 1])
         (padding_mode b) (data_format b))
      biases (data_format b) in
  dict_getitem (activation_table pre_activation) (or_default act "linear") =
    Ok (fst r)
  /\ snd r = num_out
  /\ cursor (self w') = r
  /\ In filter (new_calls (convolution num_out fh fw v h act) (mkWorld b t))
  /\ In biases (new_calls (convolution num_out fh fw v h act) (mkWorld b t)).
Proof.
  intros Hreturned bound scope filter biases pre_activation.
  assert (can_return (Convolution num_out fh fw v h act) b)
    as (Hfloat & Htop & Hsum & Hbias & Hact)
    by (apply (convolution_returns_iff num_out fh fw v h act b t);
        now rewrite Hreturned).
  destruct t as [sc dv cs]. cbn [scopes] in scope.
  assert (filter = conv_filter num_out fh fw b sc) as Hfilter.
  { unfold conv_filter, glorot_initializer.
    now rewrite glorot_bound_filter. }
  assert (pre_activation = conv_pre_activation num_out fh fw v h b sc)
    as Hpre.
  { unfold pre_activation. now rewrite Hfilter. }
  destruct (activation_known pre_activation act Hact) as [out Hout].
  pose proof (convolution_run num_out fh fw v h act b sc dv cs Hfloat Hsum
                Htop Hbias) as Hrun.
  rewrite <- Hpre, Hout in Hrun.
  rewrite (new_calls_of _ _ _ _ _ _ _ _ _ _ Hrun), Hfilter.
  rewrite Hrun in Hreturned. injection Hreturned as <- <-.
  split; [exact Hout |]. split; [reflexivity |]. split; [reflexivity |].
  unfold conv_calls, creation_calls. cbn [app In]. tauto.
Qed.

Lemma convolution_builds_witness :
  exists out w',
    convolution 64 3 3 1 1 (Some "relu")
      (mkWorld (__init__defaults (Placeholder "images" [8; 3; 4; 4]) 3 false)
         TF0) = (Ok (out, 64), w')
    /\ cursor (self w') = (out, 64).
Proof.
  assert (is_ok
            (fst (convolution 64 3 3 1 1 (Some "relu")
                    (mkWorld
                       (__init__defaults (Placeholder "images" [8; 3; 4; 4])
                          3 false) TF0))) = true) as Hok
    by (vm_compute; reflexivity).
  destruct (convolution 64 3 3 1 1 (Some "relu") _)
    as [[[out n] | e] w'] eqn:Hrun; [| discriminate Hok].
  destruct (convolution_builds _ _ _ _ _ _ _ _ _ _ Hrun)
    as (_ & Hcount & Hcursor & _).
  cbn [snd] in Hcount. subst n.
  exists out, w'. split; [reflexivity | exact Hcursor].
Defined.

(** X7. A fully connected layer that returns has built this: a variable
    ["weights"] of shape [[input channels, output channels]] in the scope
    [fc<count>], drawn uniformly from [[-b, b]] with
    [b = (6 / (in + out)) ** 0.5]; a variable ["biases"] of shape
    [[output channels]], filled with zeros; and it returns the activation's
    entry for [matmul(top layer, weights) + biases], with the number of
    output channels, both being the builder's cursor afterwards. *)
Theorem fully_connected_builds (num_out : Z) (act : option string)
    (b : CNNBuilder) (t : TFState) (r : pyobj * Z) (w' : World) :
  fully_connected num_out act (mkWorld b t) = (Ok r, w') ->
  let bound :=
    PyPow (PyTrueDiv 6 (num_top_channels b + num_out)) (PyFloat 0.5) in
  let scope := ("fc" +:+ pretty (layer_count b "fc")) :: scopes t in
  let weights :=
    VariableV2 scope (Some "/cpu:0") "weights" [num_top_channels b; num_out]
      (data_type b)
      (RandomUniformInitializer (PyNeg bound) bound (data_type b)) in
  let biases :=
    VariableV2 scope (Some "/cpu:0") "biases" [num_out] (data_type b)
      (ZerosInitializer (data_type b)) in
  let pre_activation := Add (MatMul (top_layer b) weights) biases in
  dict_getitem (activation_table pre_activation) (or_default act "linear") =
    Ok (fst r)
  /\ snd r = num_out
  /\ cursor (self w') = r
  /\ In weights (new_calls (fully_connected num_out act) (mkWorld b t))
  /\ In biases (new_calls (fully_connected num_out act) (mkWorld b t)).
Proof.
  intros Hreturned bound scope weights biases pre_activation.
  assert (can_return (FullyConnected num_out act) b)
    as (Hfloat & Htop & Hsum & Hbias & Hact)
    by (apply (fully_connected_returns_iff num_out act b t);
        now rewrite Hreturned).
  destruct t as [sc dv cs]. cbn [scopes] in scope.
  assert (weights = fc_weights num_out b sc) as Hweights.
  { unfold fc_weights, glorot_initializer.
    now rewrite glorot_bound_weights. }
  assert (pre_activation = fc_pre_activation num_out b sc) as Hpre.
  { unfold pre_activation. now rewrite Hweights. }
  destruct (activation_known pre_activation act Hact) as [out Hout].
  pose proof (fully_connected_run num_out act b sc dv cs Hfloat Hsum Hbias
                Htop) as Hrun.
  rewrite <- Hpre, Hout in Hrun.
  rewrite (new_calls_of _ _ _ _ _ _ _ _ _ _ Hrun), Hweights.
  rewrite Hrun in Hreturned. injection Hreturned as <- <-.
  split; [exact Hout |]. split; [reflexivity |]. split; [reflexivity |].
  unfold fc_calls, creation_calls. cbn [app In]. tauto.
Qed.

Lemma fully_connected_builds_witness :
  exists out w',
    fully_connected 10 None
      (mkWorld (__init__defaults (Placeholder "features" [8; 256]) 256 false)
         TF0) = (Ok (out, 10), w')
    /\ out =
         Add (MatMul (Placeholder "features" [8; 256])
                (VariableV2 ["fc0"] (Some "/cpu:0") "weights" [256; 10]
                   float32
                   (RandomUniformInitializer
                      (PyNeg (PyPow (PyTrueDiv 6 266) (PyFloat 0.5)))
                      (PyPow (PyTrueDiv 6 266) (PyFloat 0.5)) float32)))
           (VariableV2 ["fc0"] (Some "/cpu:0") "biases" [10] float32
              (ZerosInitializer float32)).
Proof.
  assert (is_ok
            (fst (fully_connected 10 None
                    (mkWorld
                       (__init__defaults (Placeholder "features" [8; 256])
                          256 false) TF0))) = true) as Hok
    by (vm_compute; reflexivity).
  destruct (fully_connected 10 None _) as [[[out n] | e] w'] eqn:Hrun;
    [| discriminate Hok].
  destruct (fully_connected_builds _ _ _ _ _ _ Hrun) as (Hout & Hcount & _).
  cbn [snd] in Hcount. subst n.
  exists out, w'. split; [reflexivity |].
  vm_compute in Hout. now injection Hout as <-.
Defined.

(** X8. When [convolution] or [fully_connected] raises [KeyError], the key
    is the activation method, which is not in the table, and the error
    comes late: both variables were asked for and every framework call of
    the layer was made. The name of the layer is used up, and the cursor is
    where it was. *)
Theorem unknown_activation_raises_late (num_out fh fw v h : Z)
    (act : option string) (b : CNNBuilder) (t : TFState) (key : string)
    (w' : World) :
  (convolution num_out fh fw v h act (mkWorld b t) =
     (Raise (KeyError key), w') ->
   key = or_default act "linear"
   /\ ~ In key activation_methods
   /\ cursor (self w') = cursor b
   /\ layer_count (self w') "conv" = layer_count b "conv" + 1
   /\ new_calls (convolution num_out fh fw v h act) (mkWorld b t) =
        conv_calls num_out fh fw v h b (scopes t))
  /\ (fully_connected num_out act (mkWorld b t) =
        (Raise (KeyError key), w') ->
      key = or_default act "linear"
      /\ ~ In key activation_methods
      /\ cursor (self w') = cursor b
      /\ layer_count (self w') "fc" = layer_count b "fc" + 1
      /\ new_calls (fully_connected num_out act) (mkWorld b t) =
           fc_calls num_out b (scopes t)).
Proof.
  destruct t as [sc dv cs]. cbn [scopes]. split; intros Hraised.
  - destruct (is_floating (data_type b)) eqn:Hfloat.
    2: { rewrite convolution_not_floating in Hraised by assumption.
         discriminate Hraised. }
    destruct (Z.eq_dec ((num_top_channels b + num_out) * (fh * fw)) 0)
      as [Hzero | Hsum].
    { rewrite convolution_no_filter in Hraised by assumption.
      discriminate Hraised. }
    destruct (is_tensor (top_layer b)) eqn:Htop.
    2: { rewrite convolution_top_not_tensor in Hraised by assumption.
         discriminate Hraised. }
    destruct (Z.eq_dec (num_out + num_out) 0) as [Hzero | Hbias].
    { rewrite convolution_no_biases in Hraised by assumption.
      discriminate Hraised. }
    pose proof (convolution_run num_out fh fw v h act b sc dv cs Hfloat Hsum
                  Htop Hbias) as Hrun.
    destruct (known_or_not (or_default act "linear") activation_methods)
      as [Hknown | Hunknown].
    { destruct (activation_known
                  (conv_pre_activation num_out fh fw v h b sc) act Hknown)
        as [out Hout].
      rewrite Hout in Hrun. rewrite Hrun in Hraised. discriminate Hraised. }
    rewrite activation_unknown in Hrun by assumption.
    rewrite (new_calls_of _ _ _ _ _ _ _ _ _ _ Hrun).
    rewrite Hrun in Hraised. injection Hraised as <- <-.
    split; [reflexivity |]. split; [exact Hunknown |].
    split; [reflexivity |]. split; [| reflexivity].
    unfold layer_count, conv_named. cbn [self layer_counts].
    now rewrite lookup_insert_eq.
  - destruct (is_floating (data_type b)) eqn:Hfloat.
    2: { rewrite fully_connected_not_floating in Hraised by assumption.
         discriminate Hraised. }
    destruct (Z.eq_dec (num_top_channels b + num_out) 0) as [Hzero | Hsum].
    { rewrite fully_connected_no_weights in Hraised by assumption.
      discriminate Hraised. }
    destruct (Z.eq_dec (num_out + num_out) 0) as [Hzero | Hbias].
    { rewrite fully_connected_no_biases in Hraised by assumption.
      discriminate Hraised. }
    destruct (is_tensor (top_layer b)) eqn:Htop.
    2: { rewrite fully_connected_top_not_tensor in Hraised by assumption.
         discriminate Hraised. }
    pose proof (fully_connected_run num_out act b sc dv cs Hfloat Hsum Hbias
                  Htop) as Hrun.
    destruct (known_or_not (or_default act "linear") activation_methods)
      as [Hknown | Hunknown].
    { destruct (activation_known (fc_pre_activation num_out b sc) act Hknown)
        as [out Hout].
      rewrite Hout in Hrun. rewrite Hrun in Hraised. discriminate Hraised. }
    rewrite activation_unknown in Hrun by assumption.
    rewrite (new_calls_of _ _ _ _ _ _ _ _ _ _ Hrun).
    rewrite Hrun in Hraised. injection Hraised as <- <-.
    split; [reflexivity |]. split; [exact Hunknown |].
    split; [reflexivity |]. split; [| reflexivity].
    unfold layer_count, fc_named. cbn [self layer_counts].
    now rewrite lookup_insert_eq.
Qed.

Lemma unknown_activation_raises_late_witness :
  exists w',
    fully_connected 10 (Some "swish")
      (mkWorld (__init__defaults (Placeholder "features" [8; 256]) 256 false)
         TF0) = (Raise (KeyError "swish"), w')
    /\ layer_count (self w') "fc" = 1
    /\ existsb is_variable
         (new_calls (fully_connected 10 (Some "swish"))
            (mkWorld
               (__init__defaults (Placeholder "features" [8; 256]) 256 false)
               TF0)) = true.
Proof.
  eexists. split; [vm_compute; reflexivity |].
  destruct (unknown_activation_raises_late 10 1 1 1 1 (Some "swish")
              (__init__defaults (Placeholder "features" [8; 256]) 256 false)
              TF0 "swish"
              (snd (fully_connected 10 (Some "swish")
                      (mkWorld
                         (__init__defaults (Placeholder "features" [8; 256])
                            256 false) TF0)))) as [_ Hfc].
  destruct Hfc as (_ & _ & _ & Hcount & Hcalls); [vm_compute; reflexivity |].
  split.
  - vm_compute. reflexivity.
  - rewrite Hcalls. reflexivity.
Defined.

(** X9. With a data type that is not floating point, the [TypeError] of
    [cnn_variable] is never seen: [convolution] passes the instance on as
    the filter of [conv2d], and [fully_connected] as the second factor of
    [matmul]. These are the only framework calls made inside the scope, so
    no variable is created; the layer's name is used up and the cursor is
    where it was. *)
Theorem not_floating_reaches_the_framework (num_out fh fw v h : Z)
    (act : option string) (b : CNNBuilder) (t : TFState) :
  is_floating (data_type b) = false ->
  new_calls (convolution num_out fh fw v h act) (mkWorld b t) =
    [VariableScope ("conv" +:+ pretty (layer_count b "conv"));
     Conv2D (top_layer b) (ExcInstance not_floating_point)
       (if String.eqb (data_format b) "NCHW" then [1; 1; v; h]
        else [1; v; h; 1])
       (padding_mode b) (data_format b)]
  /\ new_calls (fully_connected num_out act) (mkWorld b t) =
       [VariableScope ("fc" +:+ pretty (layer_count b "fc"));
        MatMul (top_layer b) (ExcInstance not_floating_point)]
  /\ cursor (self (snd (convolution num_out fh fw v h act (mkWorld b t)))) =
       cursor b
  /\ cursor (self (snd (fully_connected num_out act (mkWorld b t)))) =
       cursor b
  /\ is_ok (fst (convolution num_out fh fw v h act (mkWorld b t))) = false
  /\ is_ok (fst (fully_connected num_out act (mkWorld b t))) = false.
Proof.
  intros Hfloat. destruct t as [sc dv cs].
  pose proof (convolution_not_floating num_out fh fw v h act b sc dv cs
                Hfloat) as Hconv.
  pose proof (fully_connected_not_floating num_out act b sc dv cs Hfloat)
    as Hfc.
  rewrite (new_calls_of _ _ _ _ _ _ _ _ _ _ Hconv).
  rewrite (new_calls_of _ _ _ _ _ _ _ _ _ _ Hfc).
  rewrite Hconv, Hfc. repeat split.
Qed.

Lemma not_floating_reaches_the_framework_witness :
  new_calls (fully_connected 10 None)
    (mkWorld
       (__init__ (Placeholder "features" [8; 256]) 256 false "SAME" "NHWC"
          int32) TF0) =
    [VariableScope "fc0";
     MatMul (Placeholder "features" [8; 256])
       (ExcInstance not_floating_point)].
Proof.
  apply (not_floating_reaches_the_framework 10 1 1 1 1 None
           (__init__ (Placeholder "features" [8; 256]) 256 false "SAME"
              "NHWC" int32) TF0).
  reflexivity.
Defined.

(** ** Names across the kinds of layers *)

Lemma requested_prefix_of_builder (c : LayerCall) (p : string) :
  In p (requested_prefix c) -> In p builder_prefixes.
Proof. destruct c; cbn; tauto. Qed.

Lemma builder_names_inj (p q : string) (m n : Z) :
  In p builder_prefixes -> In q builder_prefixes ->
  p +:+ pretty m = q +:+ pretty n -> p = q /\ m = n.
Proof.
  intros Hp Hq Heq. cbn in Hp, Hq.
  decompose [or] Hp; decompose [or] Hq; subst; try contradiction;
    try (exfalso; cbn in Heq; discriminate Heq);
    (split; [reflexivity |]);
    apply (inj (String.app _)) in Heq; now apply (inj pretty) in Heq.
Qed.

Lemma get_names_length (prefixes : list string) :
  forall w names w',
    get_names prefixes w = (Ok names, w') -> length names = length prefixes.
Proof.
  induction prefixes as [|p rest IH]; intros w names w'; cbn [get_names].
  - intros [= <- _]. reflexivity.
  - rewrite bind_get_name. unfold bind.
    destruct (get_names rest _) as [[tail_names | e] w1] eqn:Hrest;
      cbn; intros [= <- _]; cbn [length]. f_equal. exact (IH _ _ _ Hrest).
Qed.

(** X10. The names that [_get_name] hands out for the prefixes of the
    layer-adding methods (conv, dropout, fc, mpool, norm, reshape), called
    in any order and any number of times, on a builder in any state, are
    all different: also across prefixes, where in general two prefixes can
    meet in one name (as ['conv'] with count 10 and ['conv1'] with count
    0). *)
Theorem builder_names_never_repeat (prefixes : list string) (w : World)
    (names : list string) (w' : World) :
  Forall (fun p => In p builder_prefixes) prefixes ->
  get_names prefixes w = (Ok names, w') ->
  NoDup names.
Proof.
  intros Hbuilder Hrun.
  destruct (get_names_run prefixes w) as (names0 & w0 & Hrun0 & _ & Hnames).
  rewrite Hrun in Hrun0. injection Hrun0 as <- <-.
  pose proof (get_names_length _ _ _ _ Hrun) as Hlen.
  apply NoDup_alt. intros i j name Hi Hj.
  assert (is_Some (prefixes !! i)) as [p Hp]
    by (apply lookup_lt_is_Some; rewrite <- Hlen;
        apply lookup_lt_is_Some; eauto).
  assert (is_Some (prefixes !! j)) as [q Hq]
    by (apply lookup_lt_is_Some; rewrite <- Hlen;
        apply lookup_lt_is_Some; eauto).
  rewrite (Hnames i p Hp) in Hi. rewrite (Hnames j q Hq) in Hj.
  injection Hi as Hi. injection Hj as Hj. rewrite <- Hj in Hi.
  assert (In p builder_prefixes) as Hpb
    by (eapply (proj1 (List.Forall_forall _ _)) in Hbuilder;
        [exact Hbuilder | apply list_elem_of_In, list_elem_of_lookup; eauto]).
  assert (In q builder_prefixes) as Hqb
    by (eapply (proj1 (List.Forall_forall _ _)) in Hbuilder;
        [exact Hbuilder | apply list_elem_of_In, list_elem_of_lookup; eauto]).
  destruct (builder_names_inj p q _ _ Hpb Hqb Hi) as [-> Hcount].
  destruct (Nat.lt_total i j) as [Hlt | [-> | Hlt]]; [| reflexivity |].
  - pose proof (count_calls_grows q prefixes i j Hlt Hp). lia.
  - pose proof (count_calls_grows q prefixes j i Hlt Hq). lia.
Qed.

Lemma builder_names_never_repeat_witness :
  exists names w',
    get_names ["conv"; "fc"; "conv"; "norm"]
      (mkWorld (__init__defaults (Placeholder "images" [8; 3; 4; 4]) 3 false)
         TF0) = (Ok names, w')
    /\ NoDup names.
Proof.
  destruct (get_names_run ["conv"; "fc"; "conv"; "norm"]
              (mkWorld
                 (__init__defaults (Placeholder "images" [8; 3; 4; 4]) 3 false)
                 TF0)) as (names & w' & Hrun & _).
  exists names, w'. split; [exact Hrun |].
  assert (Forall (fun p => In p builder_prefixes)
            ["conv"; "fc"; "conv"; "norm"]) as Hbuilder
    by (repeat constructor; cbn; tauto).
  exact (builder_names_never_repeat _ _ _ _ Hbuilder Hrun).
Defined.

(** Two prefixes meeting in one name. *)
Example prefixes_can_meet : "conv" +:+ pretty 10 = "conv1" +:+ pretty 0.
Proof. reflexivity. Qed.

(** ** The activation *)

(** X11. On a tensor, [_activation] calls all four of the framework's relu,
    sigmoid, softmax and tanh on its input, whatever the method, known or
    not; what it returns for ['linear'], or for no method, is the input
    itself, and for each of the four others the result of the one call of
    that name. On something that is no tensor it raises at the first of the
    calls and the method is never looked at. *)
Theorem activation_calls_all_four (x : pyobj) (method : option string)
    (t : TFState) :
  (is_tensor x = true ->
   calls (snd (_activation x method t)) =
     calls t ++ [Relu x; Sigmoid x; Softmax x; Tanh x]
   /\ (or_default method "linear" = "linear" ->
       fst (_activation x method t) = Ok x)
   /\ (or_default method "linear" = "relu" ->
       fst (_activation x method t) = Ok (Relu x))
   /\ (or_default method "linear" = "sigmoid" ->
       fst (_activation x method t) = Ok (Sigmoid x))
   /\ (or_default method "linear" = "softmax" ->
       fst (_activation x method t) = Ok (Softmax x))
   /\ (or_default method "linear" = "tanh" ->
       fst (_activation x method t) = Ok (Tanh x)))
  /\ (is_tensor x = false ->
      _activation x method t = (Raise not_a_tensor, record_call (Relu x) t)).
Proof.
  destruct t as [sc dv cs]. split.
  - intros Hx. rewrite _activation_run by assumption. cbn [snd fst calls].
    split; [reflexivity |].
    repeat split; intros ->; reflexivity.
  - intros Hx. unfold _activation, TF.nn_relu, bind, TF.op.
    cbn [forallb]. rewrite Hx. reflexivity.
Qed.

Lemma activation_calls_all_four_witness :
  calls (snd (_activation (Placeholder "x" [2; 2]) (Some "swish") TF0)) =
    [Relu (Placeholder "x" [2; 2]); Sigmoid (Placeholder "x" [2; 2]);
     Softmax (Placeholder "x" [2; 2]); Tanh (Placeholder "x" [2; 2])]
  /\ fst (_activation (Placeholder "x" [2; 2]) None TF0) =
       Ok (Placeholder "x" [2; 2]).
Proof.
  split.
  - apply (activation_calls_all_four (Placeholder "x" [2; 2]) (Some "swish")
             TF0).
    reflexivity.
  - apply (activation_calls_all_four (Placeholder "x" [2; 2]) None TF0);
      reflexivity.
Defined.

(** ** The size of the last dimension *)

Lemma getitem_last_snoc {A} (l : list A) (x : A) :
  getitem l (-1) = Ok x -> exists init, l = init ++ [x].
Proof.
  destruct (shape_cases l) as [-> | [[y ->] | (l' & z & y & ->)]].
  - discriminate.
  - intros [= ->]. now exists [].
  - destruct (getitem_from_end l' z y) as [-> _]. intros [= ->].
    exists (l' ++ [z]). now rewrite <- app_assoc.
Qed.

Lemma activation_entry_shape x key out :
  dict_getitem (activation_table x) key = Ok out ->
  static_shape out = static_shape x.
Proof.
  unfold activation_table. cbn [dict_getitem].
  repeat match goal with
         | |- context [String.eqb ?k key] => destruct (String.eqb k key)
         end;
    intros [= <-]; reflexivity.
Qed.

Lemma reshape_shape_last (n : Z) (shape out_shape : list Z) (d : Z) :
  reshape_shape n shape = Some out_shape ->
  getitem shape (-1) = Ok d ->
  d <> -1 ->
  last out_shape = Some d.
Proof.
  intros Hfits Hd Hwild. destruct (getitem_last_snoc shape d Hd) as [init ->].
  unfold reshape_shape in Hfits.
  destruct (existsb _ _); [discriminate Hfits |].
  destruct (List.filter (fun d => d =? -1) (init ++ [d])) as [|? [|? ?]];
    [| | discriminate Hfits]; destruct (_ =? _); try discriminate Hfits;
    injection Hfits as <-.
  - apply last_snoc.
  - rewrite map_app. cbn [map]. rewrite last_snoc.
    destruct (Z.eqb_spec d (-1)); [contradiction | reflexivity].
Qed.

(** X12. Where the last entry of the shape is a number and not the wildcard,
    a [reshape] that returns has kept the books right: on a top layer of a
    known shape, reshaped to a shape it can take, the channel count that is
    recorded and returned is the size of the last dimension of the reshaped
    tensor. *)
Theorem reshape_records_explicit_last_dimension (b : CNNBuilder)
    (t : TFState) (input_shape shape out_shape : list Z) (d : Z)
    (r : pyobj * Z) (w' : World) :
  static_shape (top_layer b) = Some input_shape ->
  reshape_shape (num_elements input_shape) shape = Some out_shape ->
  getitem shape (-1) = Ok d ->
  d <> -1 ->
  reshape shape (mkWorld b t) = (Ok r, w') ->
  snd r = d
  /\ cursor (self w') = r
  /\ static_shape (fst r) = Some out_shape
  /\ last_dimension (fst r) = Some d.
Proof.
  intros Hshape Hfits Hd Hwild. destruct t as [sc dv cs].
  run_method. rewrite Hd.
  destruct (is_tensor (top_layer b)); cbn [andb]; [| discriminate].
  cbn. intros [= <- <-]. cbn [fst snd self].
  assert (static_shape
            (Reshape (top_layer b) shape
               ("reshape" +:+ pretty (layer_count b "reshape"))) =
          Some out_shape) as Hout
    by (cbn [static_shape]; now rewrite Hshape).
  split; [reflexivity |]. split; [reflexivity |]. split; [exact Hout |].
  unfold last_dimension. rewrite Hout.
  exact (reshape_shape_last _ _ _ _ Hfits Hd Hwild).
Qed.

Lemma reshape_records_explicit_last_dimension_witness :
  exists out w',
    reshape [2; 60]
      (mkWorld (__init__defaults (Placeholder "images" [2; 3; 4; 5]) 3 false)
         TF0) = (Ok (out, 60), w')
    /\ static_shape out = Some [2; 60]
    /\ last_dimension out = Some 60.
Proof.
  assert (is_ok
            (fst (reshape [2; 60]
                    (mkWorld
                       (__init__defaults (Placeholder "images" [2; 3; 4; 5])
                          3 false) TF0))) = true) as Hok
    by (vm_compute; reflexivity).
  destruct (reshape [2; 60] _) as [[[out n] | e] w'] eqn:Hrun;
    [| discriminate Hok].
  destruct (reshape_records_explicit_last_dimension
              (__init__defaults (Placeholder "images" [2; 3; 4; 5]) 3 false)
              TF0 [2; 3; 4; 5] [2; 60] [2; 60] 60 (out, n) w')
    as (Hcount & _ & Hstatic & Hlast);
    [reflexivity | reflexivity | reflexivity | discriminate | exact Hrun |].
  cbn [fst snd] in *. subst n.
  exists out, w'. split; [reflexivity |]. split; [exact Hstatic | exact Hlast].
Defined.

(** X13. A [fully_connected] that returns has kept the books right: on a
    top layer that is a matrix with as many columns as the builder has
    recorded channels, the channel count that is recorded and returned is
    the size of the last dimension of the tensor returned, whose shape is
    the rows of the top layer by the number of output channels. *)
Theorem fully_connected_records_last_dimension (num_out : Z)
    (act : option string) (b : CNNBuilder) (t : TFState) (rows : Z)
    (r : pyobj * Z) (w' : World) :
  static_shape (top_layer b) = Some [rows; num_top_channels b] ->
  fully_connected num_out act (mkWorld b t) = (Ok r, w') ->
  snd r = num_out
  /\ cursor (self w') = r
  /\ static_shape (fst r) = Some [rows; num_out]
  /\ last_dimension (fst r) = Some num_out.
Proof.
  intros Hshape Hreturned.
  assert (can_return (FullyConnected num_out act) b)
    as (Hfloat & Htop & Hsum & Hbias & Hact)
    by (apply (fully_connected_returns_iff num_out act b t);
        now rewrite Hreturned).
  destruct t as [sc dv cs].
  destruct (activation_known (fc_pre_activation num_out b sc) act Hact)
    as [out Hout].
  pose proof (fully_connected_run num_out act b sc dv cs Hfloat Hsum Hbias
                Htop) as Hrun.
  rewrite Hout in Hrun. rewrite Hrun in Hreturned.
  injection Hreturned as <- <-. cbn [fst snd].
  assert (static_shape out = Some [rows; num_out]) as Hresult.
  { rewrite (activation_entry_shape _ _ _ Hout).
    unfold fc_pre_activation, fc_weights. cbn [static_shape].
    now rewrite Hshape, Z.eqb_refl. }
  split; [reflexivity |]. split; [reflexivity |]. split; [exact Hresult |].
  unfold last_dimension. now rewrite Hresult.
Qed.

Lemma fully_connected_records_last_dimension_witness :
  exists out w',
    fully_connected 10 (Some "softmax")
      (mkWorld (__init__defaults (Placeholder "features" [8; 256]) 256 false)
         TF0) = (Ok (out, 10), w')
    /\ static_shape out = Some [8; 10].
Proof.
  assert (is_ok
            (fst (fully_connected 10 (Some "softmax")
                    (mkWorld
                       (__init__defaults (Placeholder "features" [8; 256])
                          256 false) TF0))) = true) as Hok
    by (vm_compute; reflexivity).
  destruct (fully_connected 10 (Some "softmax") _)
    as [[[out n] | e] w'] eqn:Hrun; [| discriminate Hok].
  destruct (fully_connected_records_last_dimension 10 (Some "softmax")
              (__init__defaults (Placeholder "features" [8; 256]) 256 false)
              TF0 8 (out, n) w') as (Hcount & _ & Hstatic & _);
    [reflexivity | exact Hrun |].
  cbn [fst snd] in *. subst n.
  exists out, w'. split; [reflexivity | exact Hstatic].
Defined.

(** ** The simple model, layer by layer *)

Lemma bind_assoc {S X Y Z} (c : M S X) (k1 : X -> M S Y) (k2 : Y -> M S Z)
    (s : S) :
  bind (bind c k1) k2 s = bind c (fun x => bind (k1 x) k2) s.
Proof. unfold bind. now destruct (c s) as [[x | e] s1]. Qed.

Lemma bind_ext {S X Y} (c : M S X) (k k' : X -> M S Y) (s : S) :
  (forall x s1, k x s1 = k' x s1) -> bind c k s = bind c k' s.
Proof. intros H. unfold bind. destruct (c s) as [[x | e] s1]; auto. Qed.

Lemma in_order_app (first_layers : list LayerCall) (middle : LayerCall)
    (rest : list LayerCall) (last_layer : LayerCall) (w : World) :
  in_order (first_layers ++ middle :: rest) last_layer w =
    (in_order first_layers middle ;; in_order rest last_layer) w.
Proof.
  revert w. induction first_layers as [|c layers IH]; intros w;
    cbn [app in_order fold_right]; [reflexivity |].
  rewrite bind_assoc. apply bind_ext. intros _ w1. apply IH.
Qed.

Lemma call_keeps_configuration (c : LayerCall) :
  keeps_field configuration (call c).
Proof.
  destruct c; cbn [call];
    unfold add_layer, convolution, dropout, fully_connected, max_pooling,
      normalization, reshape, _get_name, return_top;
    keeps_the_field.
Qed.

Lemma in_order_keeps_configuration (layers : list LayerCall)
    (last_layer : LayerCall) :
  keeps_field configuration (in_order layers last_layer).
Proof.
  induction layers as [|c layers IH]; cbn [in_order fold_right].
  - apply call_keeps_configuration.
  - apply keeps_field_bind; [apply call_keeps_configuration | intros _].
    exact IH.
Qed.

(** A run that returns began with a call that returned, and returns what
    its last call returns. *)
Lemma in_order_first (c : LayerCall) (layers : list LayerCall)
    (last_layer : LayerCall) w r w' :
  in_order (c :: layers) last_layer w = (Ok r, w') ->
  is_ok (fst (call c w)) = true.
Proof.
  cbn [in_order fold_right]. unfold bind.
  destruct (call c w) as [[x | e] w1]; [reflexivity | discriminate].
Qed.

Lemma in_order_last (layers : list LayerCall) (last_layer : LayerCall) :
  forall w r w',
    in_order layers last_layer w = (Ok r, w') ->
    exists w1, call last_layer w1 = (Ok r, w').
Proof.
  induction layers as [|c layers IH]; intros w r w';
    cbn [in_order fold_right].
  - intros Hrun. now exists w.
  - unfold bind. destruct (call c w) as [[x | e] w1]; [apply IH | discriminate].
Qed.

Lemma reshape_returned (shape : list Z) (w : World) r w' :
  reshape shape w = (Ok r, w') ->
  exists d,
    getitem shape (-1) = Ok d
    /\ top_layer (self w') =
         Reshape (top_layer (self w)) shape (next_name "reshape" w)
    /\ num_top_channels (self w') = d.
Proof.
  destruct w as [b [sc dv cs]]. run_method.
  destruct (is_tensor (top_layer b)); cbn [andb]; [| discriminate].
  destruct (getitem shape (-1)) as [d | e]; cbn; [| discriminate].
  intros [= _ <-]. exists d. repeat split.
Qed.

(** C6. [SimpleModel.inference] is the listed calls in the listed order,
    followed by [fully_connected(num_classes)], whose result is its result.
    Once the seven layers before the reshape and [reshape([batch_size, -1])]
    have returned, the builder's channel count is [-1], and what
    [inference] does next is [fully_connected(512)], whose first request to
    the framework, after it has entered the scope and the device and built
    the two initializers, is for a variable ["weights"] of shape
    [[-1, 512]]. *)
Theorem inference_reaches_wildcard_weights (this : SimpleModel.Model)
    (w : World) :
  SimpleModel.inference this w =
    in_order (simple_model_layers this) (simple_model_last_layer this) w
  /\ forall r w8,
       in_order simple_model_features (simple_model_reshape this) w =
         (Ok r, w8) ->
       SimpleModel.inference this w =
         in_order simple_model_dense (simple_model_last_layer this) w8
       /\ num_top_channels (self w8) = -1
       /\ exists later,
            new_calls (fully_connected 512 (Some "relu")) w8 =
              [VariableScope (fc_scope (self w8));
               Device "/cpu:0";
               glorot_initializer [-1; 512] (data_type (self w8));
               ZerosInitializer (data_type (self w8));
               VariableV2 (fc_scope (self w8) :: scopes (tf w8))
                 (Some "/cpu:0") "weights" [-1; 512] (data_type (self w8))
                 (glorot_initializer [-1; 512] (data_type (self w8)))]
              ++ later.
Proof.
  split; [reflexivity |]. intros r w8 Hrun.
  assert (is_floating (data_type (self w)) = true) as Hfloat.
  { pose proof (in_order_first _ _ _ _ _ _ Hrun) as Hfirst.
    destruct w as [b t]. cbn [call self] in *.
    now apply convolution_returns_iff in Hfirst as (Hfloat & _). }
  assert (data_type (self w8) = data_type (self w)) as Hkept.
  { pose proof (in_order_keeps_configuration simple_model_features
                  (simple_model_reshape this) w) as Hconf.
    rewrite Hrun in Hconf. cbn [snd] in Hconf. unfold configuration in Hconf.
    now injection Hconf. }
  destruct (in_order_last _ _ _ _ _ Hrun) as [w7 Hreshape].
  destruct (reshape_returned _ _ _ _ Hreshape) as (d & Hd & Htop & Hcount).
  injection Hd as <-.
  split; [| split; [exact Hcount |]].
  - change (SimpleModel.inference this)
      with (in_order
              (simple_model_features
               ++ simple_model_reshape this :: simple_model_dense)
              (simple_model_last_layer this)).
    rewrite in_order_app. unfold bind. now rewrite Hrun.
  - destruct w8 as [b8 [sc dv cs]]. cbn [self tf scopes] in *.
    assert (is_tensor (top_layer b8) = true) as Htop8 by now rewrite Htop.
    assert (num_top_channels b8 + 512 <> 0) as Hsum by lia.
    assert (512 + 512 <> 0) as Hbias by lia.
    rewrite <- Hkept in Hfloat.
    pose proof (fully_connected_run 512 (Some "relu") b8 sc dv cs Hfloat Hsum
                  Hbias Htop8) as Hfc.
    cbn [or_default String.eqb Ascii.eqb Bool.eqb activation_table
         dict_getitem] in Hfc.
    rewrite (new_calls_of _ _ _ _ _ _ _ _ _ _ Hfc).
    unfold fc_calls, creation_calls, fc_weights. rewrite Hcount.
    cbn [app]. eexists. reflexivity.
Qed.

Lemma inference_reaches_wildcard_weights_witness :
  exists r w8 later,
    in_order simple_model_features
      (simple_model_reshape (SimpleModel.__init__ 32 10))
      (mkWorld
         (__init__ (Placeholder "images" [32; 24; 24; 3]) 3 true "SAME" "NHWC"
            float32) TF0) = (Ok r, w8)
    /\ num_top_channels (self w8) = -1
    /\ new_calls (fully_connected 512 (Some "relu")) w8 =
         [VariableScope "fc0";
          Device "/cpu:0";
          glorot_initializer [-1; 512] float32;
          ZerosInitializer float32;
          VariableV2 ["fc0"] (Some "/cpu:0") "weights" [-1; 512] float32
            (glorot_initializer [-1; 512] float32)]
         ++ later.
Proof.
  pose (run :=
          in_order simple_model_features
            (simple_model_reshape (SimpleModel.__init__ 32 10))
            (mkWorld
               (__init__ (Placeholder "images" [32; 24; 24; 3]) 3 true "SAME"
                  "NHWC" float32) TF0)).
  pose (r := match fst run with
             | Ok r => r
             | Raise _ => (Placeholder "images" [32; 24; 24; 3], 3)
             end).
  assert (run = (Ok r, snd run)) as Hrun by (vm_compute; reflexivity).
  destruct (inference_reaches_wildcard_weights (SimpleModel.__init__ 32 10)
              (mkWorld
                 (__init__ (Placeholder "images" [32; 24; 24; 3]) 3 true
                    "SAME" "NHWC" float32) TF0)) as [_ Hreached].
  destruct (Hreached r (snd run) Hrun) as (_ & Hcount & later & Hcalls).
  exists r, (snd run), later.
  split; [exact Hrun |]. split; [exact Hcount |].
  rewrite Hcalls. vm_compute. reflexivity.
Defined.


